(** * Verification of [MapUnicodesTextNormalizer] (src/normalizer.py)

    A shallow embedding of the normalizer: the two class-level tables
    [disallowed_unicode_category] and [unicode_map], and the three methods
    [normalize_text], [__replace_character] and
    [__is_unicode_category_allowed].

    Python strings are sequences of code points, so a [str] is a list of
    code points and a character is a [str] of length one.  The platform's
    [unicodedata.category] is the only collaborator that is not part of the
    module; its table is a parameter of the development. *)

From stdpp Require Import base option list strings gmap.

Set Default Proof Using "Type".

(** ** Python values *)

(** A code point; [str] is Python's immutable sequence of code points. *)
Abbreviation codepoint := N (only parsing).
Abbreviation str := (list N) (only parsing).

(** [chr(i)]: the one-character string whose code point is [i]. *)
Definition chr (i : codepoint) : str := [i].

(** Iterating a [str] ([for char in text]) yields its characters in order,
    each one a [str] of length one.  A supplementary-plane code point is one
    element of the sequence, hence one character. *)
Definition str_iter (text : str) : list str := chr <$> text.

(** [sep.join(parts)]. *)
Fixpoint str_join (sep : str) (parts : list str) : str :=
  match parts with
  | [] => []
  | [p] => p
  | p :: ps => p ++ sep ++ str_join sep ps
  end.

(** A dict display [{k1: v1, ..., kn: vn}] inserts its items from left to
    right, so that a repeated key keeps its last value. *)
Definition dict_display {V} (items : list (str * V)) : gmap str V :=
  foldl (λ d kv, <[kv.1 := kv.2]> d) ∅ items.

(** ** Exceptions *)

Inductive exn := TypeError.

Inductive result (A : Type) :=
  | Ok (a : A)
  | Raise (e : exn).
Arguments Ok {A} a.
Arguments Raise {A} e.

#[global] Instance result_ret : MRet result := λ A, Ok.
#[global] Instance result_bind : MBind result := λ A B f r,
  match r with
  | Ok a => f a
  | Raise e => Raise e
  end.
#[global] Instance result_fmap : FMap result := λ A B f r,
  match r with
  | Ok a => Ok (f a)
  | Raise e => Raise e
  end.

(** ** The class attributes *)

Module MapUnicodesTextNormalizer.

Definition disallowed_unicode_category : gset string :=
  list_to_set
    [ "Cc"; "Cf"; "Mc"; "Me"; "Mn"; "Pc"; "Pd"; "Pe";
      "Pf"; "Pi"; "Po"; "Ps"; "Sm"; "So"; "Zl"; "Zp" ]%string.

(** The items of the [unicode_map] display, in source order.  Keys are the
    source's [\uXXXX] and [\UXXXXXXXX] escapes; values are the source's
    literal characters, written by code point. *)
Definition unicode_map_items : list (str * str) :=
  [
    (chr 0x00b4, chr 0x00b4); (* Acute Accent *)
    (chr 0x02dd, chr 0x00b4); (* Double Acute Accent *)
    (chr 0x02f6, chr 0x00b4); (* Modifier Letter Middle Double Acute Accent *)
    (chr 0x1ffd, chr 0x00b4); (* Greek Oxia *)
    (chr 0xff40, chr 0x00b4); (* Fullwidth Grave Accent *)
    (chr 0x0026, chr 0x0026); (* Ampersand *)
    (chr 0x214b, chr 0x0026); (* Turned Ampersand *)
    (chr 0xfe60, chr 0x0026); (* Small Ampersand *)
    (chr 0xff06, chr 0x0026); (* Fullwidth Ampersand *)
    (chr 0x00016b3a, chr 0x0026); (* Pahawh Hmong Sign Vos Thiab *)
    (chr 0x0027, chr 0x0027); (* Apostrophe *)
    (chr 0xff07, chr 0x0027); (* Fullwidth Apostrophe *)
    (chr 0x00011a41, chr 0x0027); (* Zanabazar Square Mark Tsheg *)
    (chr 0x002a, chr 0x002a); (* Asterisk *)
    (chr 0x066d, chr 0x002a); (* Arabic Five Pointed Star *)
    (chr 0x2042, chr 0x002a); (* Asterism *)
    (chr 0x2051, chr 0x002a); (* Two Asterisks Aligned Vertically *)
    (chr 0x2055, chr 0x002a); (* Flower Punctuation Mark *)
    (chr 0x2217, chr 0x002a); (* Asterisk Operator *)
    (chr 0x22c6, chr 0x002a); (* Star Operator *)
    (chr 0x22c7, chr 0x002a); (* Division Times *)
    (chr 0x204e, chr 0x002a); (* Low Asterisk *)
    (chr 0xa60e, chr 0x002a); (* Vai Full Stop *)
    (chr 0xa673, chr 0x002a); (* Slavonic Asterisk *)
    (chr 0xfe61, chr 0x002a); (* Small Asterisk *)
    (chr 0xff0a, chr 0x002a); (* Fullwidth Asterisk *)
    (chr 0x003a, chr 0x003a); (* Colon *)
    (chr 0x02f8, chr 0x003a); (* Modifier Letter Raised Colon *)
    (chr 0x0589, chr 0x003a); (* Armenian Full Stop *)
    (chr 0x05c3, chr 0x003a); (* Hebrew Punctuation Sof Pasuq *)
    (chr 0x0703, chr 0x003a); (* Syriac Supralinear Colon *)
    (chr 0x0704, chr 0x003a); (* Syriac Sublinear Colon *)
    (chr 0x0706, chr 0x003a); (* Syriac Colon Skewed Left *)
    (chr 0x0707, chr 0x003a); (* Syriac Colon Skewed Right *)
    (chr 0x0708, chr 0x003a); (* Syriac Supralinear Colon Skewed Left *)
    (chr 0x0709, chr 0x003a); (* Syriac Sublinear Colon Skewed Right *)
    (chr 0x0831, chr 0x003a); (* Samaritan Punctuation Afsaaq *)
    (chr 0x0fd2, chr 0x003a); (* Tibetan Mark Nyis Tsheg *)
    (chr 0x1361, chr 0x003a); (* Ethiopic Wordspace *)
    (chr 0x1366, chr 0x003a); (* Ethiopic Preface Colon *)
    (chr 0x1367, chr 0x003a); (* Ethiopic Question Mark *)
    (chr 0x16ec, chr 0x003a); (* Runic Multiple Punctuation *)
    (chr 0x1804, chr 0x003a); (* Mongolian Colon *)
    (chr 0x1a1e, chr 0x003a); (* Buginese Pallawa *)
    (chr 0x1b5d, chr 0x003a); (* Balinese Carik Pamungkah *)
    (chr 0x205a, chr 0x003a); (* Two Dot Punctuation *)
    (chr 0x205d, chr 0x003a); (* Tricolon *)
    (chr 0x205e, chr 0x003a); (* Vertical Four Dots *)
    (chr 0x2236, chr 0x003a); (* Ratio *)
    (chr 0x22ee, chr 0x003a); (* Vertical Ellipsis *)
    (chr 0x2982, chr 0x003a); (* Z Notation Type Colon *)
    (chr 0x2999, chr 0x003a); (* Dotted Fence *)
    (chr 0x2af6, chr 0x003a); (* Triple Colon Operator *)
    (chr 0x2e3d, chr 0x003a); (* Vertical Six Dots *)
    (chr 0xa789, chr 0x003a); (* Modifier Letter Colon *)
    (chr 0xfbbd, chr 0x003a); (* Arabic Symbol Two Dots Vertically Above *)
    (chr 0xfbbe, chr 0x003a); (* Arabic Symbol Two Dots Vertically Below *)
    (chr 0xfe13, chr 0x003a); (* Presentation Form For Vertical Colon *)
    (chr 0xfe19, chr 0x003a); (* Presentation Form For Vertical Horizontal Ellipsis *)
    (chr 0xfe30, chr 0x003a); (* Presentation Form For Vertical Two Dot Leader *)
    (chr 0xfe55, chr 0x003a); (* Small Colon *)
    (chr 0xff1a, chr 0x003a); (* Fullwidth Colon *)
    (chr 0x00010af5, chr 0x003a); (* Manichaean Punctuation Two Dots *)
    (chr 0x0001104a, chr 0x003a); (* Brahmi Punctuation Double Dot *)
    (chr 0x0001123a, chr 0x003a); (* Khojki Word Separator *)
    (chr 0x000112a9, chr 0x003a); (* Multani Section Mark *)
    (chr 0x00011ef7, chr 0x003a); (* Makasar Passimbang *)
    (chr 0x002c, chr 0x002c); (* Comma *)
    (chr 0x02db, chr 0x002c); (* Ogonek *)
    (chr 0x0375, chr 0x002c); (* Greek Lower Numeral Sign *)
    (chr 0x060c, chr 0x002c); (* Arabic Comma *)
    (chr 0x066b, chr 0x002c); (* Arabic Decimal Separator *)
    (chr 0x066c, chr 0x002c); (* Arabic Thousands Separator *)
    (chr 0x201a, chr 0x002c); (* Single Low-9 Quotation Mark *)
    (chr 0x201e, chr 0x002c); (* Double Low-9 Quotation Mark *)
    (chr 0x2e12, chr 0x002c); (* Hypodiastole *)
    (chr 0x2e32, chr 0x002c); (* Turned Comma *)
    (chr 0x2e34, chr 0x002c); (* Raised Comma *)
    (chr 0x2e41, chr 0x002c); (* Reversed Comma *)
    (chr 0x3001, chr 0x002c); (* Ideographic Comma *)
    (chr 0xaa5d, chr 0x002c); (* Cham Punctuation Danda *)
    (chr 0xfe45, chr 0x002c); (* Sesame Dot *)
    (chr 0xfe46, chr 0x002c); (* White Sesame Dot *)
    (chr 0xfe50, chr 0x002c); (* Small Comma *)
    (chr 0xfe51, chr 0x002c); (* Small Ideographic Comma *)
    (chr 0xff0c, chr 0x002c); (* Fullwidth Comma *)
    (chr 0xff64, chr 0x002c); (* Halfwidth Ideographic Comma *)
    (chr 0x00010100, chr 0x002c); (* Aegean Word Separator Line *)
    (chr 0x000111c8, chr 0x002c); (* Sharada Separator *)
    (chr 0x0001144d, chr 0x002c); (* Newa Comma *)
    (chr 0x00011c43, chr 0x002c); (* Bhaiksuki Word Separator *)
    (chr 0x00016e97, chr 0x002c); (* Medefaidrin Comma *)
    (chr 0x00016e98, chr 0x002c); (* Medefaidrin Full Stop *)
    (chr 0x0040, chr 0x0040); (* Commercial At *)
    (chr 0xfe6b, chr 0x0040); (* Small Commercial At *)
    (chr 0xff20, chr 0x0040); (* Fullwidth Commercial At *)
    (chr 0x003d, chr 0x003d); (* Equals Sign *)
    (chr 0x02ed, chr 0x003d); (* Modifier Letter Unaspirated *)
    (chr 0x083a, chr 0x003d); (* Samaritan Punctuation Zaef *)
    (chr 0x1400, chr 0x003d); (* Canadian Syllabics Hyphen *)
    (chr 0x2017, chr 0x003d); (* Double Low Line *)
    (chr 0x207c, chr 0x003d); (* Superscript Equals Sign *)
    (chr 0x208c, chr 0x003d); (* Subscript Equals Sign *)
    (chr 0x2242, chr 0x003d); (* Minus Tilde *)
    (chr 0x2243, chr 0x003d); (* Asymptotically Equal To *)
    (chr 0x2244, chr 0x003d); (* Not Asymptotically Equal To *)
    (chr 0x2245, chr 0x003d); (* Approximately Equal To *)
    (chr 0x2246, chr 0x003d); (* Approximately But Not Actually Equal To *)
    (chr 0x2247, chr 0x003d); (* Neither Approximately Nor Actually Equal To *)
    (chr 0x2248, chr 0x003d); (* Almost Equal To *)
    (chr 0x2249, chr 0x003d); (* Not Almost Equal To *)
    (chr 0x224a, chr 0x003d); (* Almost Equal or Equal To *)
    (chr 0x224b, chr 0x003d); (* Triple Tilde *)
    (chr 0x224c, chr 0x003d); (* All Equal To *)
    (chr 0x224d, chr 0x003d); (* Equivalent To *)
    (chr 0x224e, chr 0x003d); (* Geometrically Equivalent To *)
    (chr 0x224f, chr 0x003d); (* Difference Between *)
    (chr 0x2250, chr 0x003d); (* Approaches the Limit *)
    (chr 0x2251, chr 0x003d); (* Geometrically Equal To *)
    (chr 0x2252, chr 0x003d); (* Approximately Equal to or the Image Of *)
    (chr 0x2253, chr 0x003d); (* Image of or Approximately Equal To *)
    (chr 0x2254, chr 0x003d); (* Colon Equals *)
    (chr 0x2255, chr 0x003d); (* Equals Colon *)
    (chr 0x2256, chr 0x003d); (* Ring In Equal To *)
    (chr 0x2257, chr 0x003d); (* Ring Equal To *)
    (chr 0x2258, chr 0x003d); (* Corresponds To *)
    (chr 0x2259, chr 0x003d); (* Estimates *)
    (chr 0x225a, chr 0x003d); (* Equiangular To *)
    (chr 0x225b, chr 0x003d); (* Star Equals *)
    (chr 0x225c, chr 0x003d); (* Delta Equal To *)
    (chr 0x225d, chr 0x003d); (* Equal to By Definition *)
    (chr 0x225e, chr 0x003d); (* Measured By *)
    (chr 0x225f, chr 0x003d); (* Questioned Equal To *)
    (chr 0x2260, chr 0x003d); (* Not Equal To *)
    (chr 0x2261, chr 0x003d); (* Identical To *)
    (chr 0x2262, chr 0x003d); (* Not Identical To *)
    (chr 0x2263, chr 0x003d); (* Strictly Equivalent To *)
    (chr 0x22cd, chr 0x003d); (* Reversed Tilde Equals *)
    (chr 0x2a66, chr 0x003d); (* Equals Sign with Dot Below *)
    (chr 0x2a67, chr 0x003d); (* Identical with Dot Above *)
    (chr 0x2a6c, chr 0x003d); (* Similar Minus Similar *)
    (chr 0x2a6d, chr 0x003d); (* Congruent with Dot Above *)
    (chr 0x2a6e, chr 0x003d); (* Equals with Asterisk *)
    (chr 0x2a6f, chr 0x003d); (* Almost Equal to with Circumflex Accent *)
    (chr 0x2a70, chr 0x003d); (* Approximately Equal or Equal To *)
    (chr 0x2a73, chr 0x003d); (* Equals Sign Above Tilde Operator *)
    (chr 0x2a74, chr 0x003d); (* Double Colon Equal *)
    (chr 0x2a75, chr 0x003d); (* Two Consecutive Equals Signs *)
    (chr 0x2a76, chr 0x003d); (* Three Consecutive Equals Signs *)
    (chr 0x2a77, chr 0x003d); (* Equals Sign with Two Dots Above and Two Dots Below *)
    (chr 0x2a78, chr 0x003d); (* Equivalent with Four Dots Above *)
    (chr 0x2aae, chr 0x003d); (* Equals Sign with Bumpy Above *)
    (chr 0x2e40, chr 0x003d); (* Double Hyphen *)
    (chr 0xa4ff, chr 0x003d); (* Lisu Punctuation Full Stop *)
    (chr 0xa78a, chr 0x003d); (* Modifier Letter Short Equals Sign *)
    (chr 0xfe66, chr 0x003d); (* Small Equals Sign *)
    (chr 0xff1d, chr 0x003d); (* Fullwidth Equals Sign *)
    (chr 0x000110bf, chr 0x003d); (* Kaithi Double Section Mark *)
    (chr 0x000111de, chr 0x003d); (* Sharada Section Mark-1 *)
    (chr 0x0001123c, chr 0x003d); (* Khojki Double Section Mark *)
    (chr 0x0001bc9f, chr 0x003d); (* Duployan Punctuation Chinook Full Stop *)
    (chr 0x002e, chr 0x002e); (* Full Stop *)
    (chr 0x00b7, chr 0x002e); (* Middle Dot *)
    (chr 0x02d9, chr 0x002e); (* Dot Above *)
    (chr 0x0387, chr 0x002e); (* Greek Ano Teleia *)
    (chr 0x06d4, chr 0x002e); (* Arabic Full Stop *)
    (chr 0x0701, chr 0x002e); (* Syriac Supralinear Full Stop *)
    (chr 0x0702, chr 0x002e); (* Syriac Sublinear Full Stop *)
    (chr 0x0830, chr 0x002e); (* Samaritan Punctuation Nequdaa *)
    (chr 0x0a76, chr 0x002e); (* Gurmukhi Abbreviation Sign *)
    (chr 0x0f0b, chr 0x002e); (* Tibetan Mark Intersyllabic Tsheg *)
    (chr 0x0f0c, chr 0x002e); (* Tibetan Mark Delimiter Tsheg Bstar *)
    (chr 0x16eb, chr 0x002e); (* Runic Single Punctuation *)
    (chr 0x1801, chr 0x002e); (* Mongolian Ellipsis *)
    (chr 0x1802, chr 0x002e); (* Mongolian Comma *)
    (chr 0x2022, chr 0x002e); (* Bullet *)
    (chr 0x2024, chr 0x002e); (* One Dot Leader *)
    (chr 0x2025, chr 0x002e); (* Two Dot Leader *)
    (chr 0x2026, chr 0x002e); (* Horizontal Ellipsis *)
    (chr 0x2027, chr 0x002e); (* Hyphenation Point *)
    (chr 0x2219, chr 0x002e); (* Bullet Operator *)
    (chr 0x22c5, chr 0x002e); (* Dot Operator *)
    (chr 0x2981, chr 0x002e); (* Z Notation Spot *)
    (chr 0x2e31, chr 0x002e); (* Word Separator Middle Dot *)
    (chr 0x2e33, chr 0x002e); (* Raised Dot *)
    (chr 0x30fb, chr 0x002e); (* Katakana Middle Dot *)
    (chr 0xfbb2, chr 0x002e); (* Arabic Symbol Dot Above *)
    (chr 0xfbb3, chr 0x002e); (* Arabic Symbol Dot Below *)
    (chr 0xfe52, chr 0x002e); (* Small Full Stop *)
    (chr 0xff0e, chr 0x002e); (* Fullwidth Full Stop *)
    (chr 0xff65, chr 0x002e); (* Halfwidth Katakana Middle Dot *)
    (chr 0x00010101, chr 0x002e); (* Aegean Word Separator Dot *)
    (chr 0x0001091f, chr 0x002e); (* Phoenician Word Separator *)
    (chr 0x00010a50, chr 0x002e); (* Kharoshthi Punctuation Dot *)
    (chr 0x00010af4, chr 0x002e); (* Manichaean Punctuation Dot *)
    (chr 0x00011049, chr 0x002e); (* Brahmi Punctuation Dot *)
    (chr 0x00011174, chr 0x002e); (* Mahajani Abbreviation Sign *)
    (chr 0x000111c7, chr 0x002e); (* Sharada Abbreviation Sign *)
    (chr 0x000115c4, chr 0x002e); (* Siddham Separator Dot *)
    (chr 0x0060, chr 0x0060); (* Grave Accent *)
    (chr 0x02f4, chr 0x0060); (* Modifier Letter Middle Grave Accent *)
    (chr 0x02f5, chr 0x0060); (* Modifier Letter Middle Double Grave Accent *)
    (chr 0x1fef, chr 0x0060); (* Greek Varia *)
    (chr 0x003e, chr 0x003e); (* Greater-Than Sign *)
    (chr 0x00bb, chr 0x003e); (* Right-Pointing Double Angle Quotation Mark *)
    (chr 0x02c3, chr 0x003e); (* Modifier Letter Right Arrowhead *)
    (chr 0x02f2, chr 0x003e); (* Modifier Letter Low Right Arrowhead *)
    (chr 0x169b, chr 0x003e); (* Ogham Feather Mark *)
    (chr 0x1808, chr 0x003e); (* Mongolian Manchu Comma *)
    (chr 0x1809, chr 0x003e); (* Mongolian Manchu Full Stop *)
    (chr 0x203a, chr 0x003e); (* Single Right-Pointing Angle Quotation Mark *)
    (chr 0x2265, chr 0x003e); (* Greater-Than or Equal To *)
    (chr 0x2267, chr 0x003e); (* Greater-Than Over Equal To *)
    (chr 0x2269, chr 0x003e); (* Greater-Than But Not Equal To *)
    (chr 0x226b, chr 0x003e); (* Much Greater-Than *)
    (chr 0x226f, chr 0x003e); (* Not Greater-Than *)
    (chr 0x2271, chr 0x003e); (* Neither Greater-Than Nor Equal To *)
    (chr 0x2273, chr 0x003e); (* Greater-Than or Equivalent To *)
    (chr 0x2275, chr 0x003e); (* Neither Greater-Than Nor Equivalent To *)
    (chr 0x227b, chr 0x003e); (* Succeeds *)
    (chr 0x227d, chr 0x003e); (* Succeeds or Equal To *)
    (chr 0x227f, chr 0x003e); (* Succeeds or Equivalent To *)
    (chr 0x2281, chr 0x003e); (* Does Not Succeed *)
    (chr 0x22b1, chr 0x003e); (* Succeeds Under Relation *)
    (chr 0x22d7, chr 0x003e); (* Greater-Than with Dot *)
    (chr 0x22d9, chr 0x003e); (* Very Much Greater-Than *)
    (chr 0x22dd, chr 0x003e); (* Equal to or Greater-Than *)
    (chr 0x22df, chr 0x003e); (* Equal to or Succeeds *)
    (chr 0x22e1, chr 0x003e); (* Does Not Succeed or Equal *)
    (chr 0x22e7, chr 0x003e); (* Greater-Than But Not Equivalent To *)
    (chr 0x22e9, chr 0x003e); (* Succeeds But Not Equivalent To *)
    (chr 0x232a, chr 0x003e); (* Right-Pointing Angle Bracket *)
    (chr 0x276d, chr 0x003e); (* Medium Right-Pointing Angle Bracket Ornament *)
    (chr 0x276f, chr 0x003e); (* Heavy Right-Pointing Angle Quotation Mark Ornament *)
    (chr 0x2771, chr 0x003e); (* Heavy Right-Pointing Angle Bracket Ornament *)
    (chr 0x27e9, chr 0x003e); (* Mathematical Right Angle Bracket *)
    (chr 0x27eb, chr 0x003e); (* Mathematical Right Double Angle Bracket *)
    (chr 0x297d, chr 0x003e); (* Right Fish Tail *)
    (chr 0x298a, chr 0x003e); (* Z Notation Right Binding Bracket *)
    (chr 0x2992, chr 0x003e); (* Right Angle Bracket with Dot *)
    (chr 0x2994, chr 0x003e); (* Right Arc Greater-Than Bracket *)
    (chr 0x29a0, chr 0x003e); (* Spherical Angle Opening Left *)
    (chr 0x29fd, chr 0x003e); (* Right-Pointing Curved Angle Bracket *)
    (chr 0x2a20, chr 0x003e); (* Z Notation Schema Piping *)
    (chr 0x2a7a, chr 0x003e); (* Greater-Than with Circle Inside *)
    (chr 0x2a7c, chr 0x003e); (* Greater-Than with Question Mark Above *)
    (chr 0x2a7e, chr 0x003e); (* Greater-Than or Slanted Equal To *)
    (chr 0x2a80, chr 0x003e); (* Greater-Than or Slanted Equal to with Dot Inside *)
    (chr 0x2a82, chr 0x003e); (* Greater-Than or Slanted Equal to with Dot Above *)
    (chr 0x2a84, chr 0x003e); (* Greater-Than or Slanted Equal to with Dot Above Left *)
    (chr 0x2a86, chr 0x003e); (* Greater-Than or Approximate *)
    (chr 0x2a88, chr 0x003e); (* Greater-Than and Single-Line Not Equal To *)
    (chr 0x2a8a, chr 0x003e); (* Greater-Than and Not Approximate *)
    (chr 0x2a8e, chr 0x003e); (* Greater-Than Above Similar or Equal *)
    (chr 0x2a96, chr 0x003e); (* Slanted Equal to or Greater-Than *)
    (chr 0x2a98, chr 0x003e); (* Slanted Equal to or Greater-Than with Dot Inside *)
    (chr 0x2a9a, chr 0x003e); (* Double-Line Equal to or Greater-Than *)
    (chr 0x2a9c, chr 0x003e); (* Double-Line Slanted Equal to or Greater-Than *)
    (chr 0x2a9e, chr 0x003e); (* Similar or Greater-Than *)
    (chr 0x2aa0, chr 0x003e); (* Similar Above Greater-Than Above Equals Sign *)
    (chr 0x2aa2, chr 0x003e); (* Double Nested Greater-Than *)
    (chr 0x2aad, chr 0x003e); (* Larger Than or Equal To *)
    (chr 0x2ab0, chr 0x003e); (* Succeeds Above Single-Line Equals Sign *)
    (chr 0x2ab2, chr 0x003e); (* Succeeds Above Single-Line Not Equal To *)
    (chr 0x2ab4, chr 0x003e); (* Succeeds Above Equals Sign *)
    (chr 0x2ab6, chr 0x003e); (* Succeeds Above Not Equal To *)
    (chr 0x2ab8, chr 0x003e); (* Succeeds Above Almost Equal To *)
    (chr 0x2aba, chr 0x003e); (* Succeeds Above Not Almost Equal To *)
    (chr 0x2abc, chr 0x003e); (* Double Succeeds *)
    (chr 0x2af8, chr 0x003e); (* Triple Nested Greater-Than *)
    (chr 0x2afa, chr 0x003e); (* Double-Line Slanted Greater-Than or Equal To *)
    (chr 0x2e03, chr 0x003e); (* Right Substitution Bracket *)
    (chr 0x2e05, chr 0x003e); (* Right Dotted Substitution Bracket *)
    (chr 0x2e16, chr 0x003e); (* Dotted Right-Pointing Angle *)
    (chr 0x3009, chr 0x003e); (* Right Angle Bracket *)
    (chr 0x300b, chr 0x003e); (* Right Double Angle Bracket *)
    (chr 0xfe3e, chr 0x003e); (* Presentation Form For Vertical Right Double Angle Bracket *)
    (chr 0xfe40, chr 0x003e); (* Presentation Form For Vertical Right Angle Bracket *)
    (chr 0xfe65, chr 0x003e); (* Small Greater-Than Sign *)
    (chr 0xff1e, chr 0x003e); (* Fullwidth Greater-Than Sign *)
    (chr 0x002d, chr 0x002d); (* Hyphen-Minus *)
    (chr 0x058a, chr 0x002d); (* Armenian Hyphen *)
    (chr 0x05be, chr 0x002d); (* Hebrew Punctuation Maqaf *)
    (chr 0x1680, chr 0x002d); (* Ogham Space Mark *)
    (chr 0x1806, chr 0x002d); (* Mongolian Todo Soft Hyphen *)
    (chr 0x180a, chr 0x002d); (* Mongolian Nirugu *)
    (chr 0x2010, chr 0x002d); (* Hyphen *)
    (chr 0x2011, chr 0x002d); (* Non-Breaking Hyphen *)
    (chr 0x2012, chr 0x002d); (* Figure Dash *)
    (chr 0x2013, chr 0x002d); (* En Dash *)
    (chr 0x2014, chr 0x002d); (* Em Dash *)
    (chr 0x2015, chr 0x002d); (* Horizontal Bar *)
    (chr 0x2043, chr 0x002d); (* Hyphen Bullet *)
    (chr 0x207b, chr 0x002d); (* Superscript Minus *)
    (chr 0x208b, chr 0x002d); (* Subscript Minus *)
    (chr 0x2212, chr 0x002d); (* Minus Sign *)
    (chr 0x23af, chr 0x002d); (* Horizontal Line Extension *)
    (chr 0x23bb, chr 0x002d); (* Horizontal Scan Line-3 *)
    (chr 0x29ff, chr 0x002d); (* Miny *)
    (chr 0x2a29, chr 0x002d); (* Minus Sign with Comma Above *)
    (chr 0x2a2a, chr 0x002d); (* Minus Sign with Dot Below *)
    (chr 0x2a2b, chr 0x002d); (* Minus Sign with Falling Dots *)
    (chr 0x2a2c, chr 0x002d); (* Minus Sign with Rising Dots *)
    (chr 0x2e3a, chr 0x002d); (* Two-Em Dash *)
    (chr 0x2e3b, chr 0x002d); (* Three-Em Dash *)
    (chr 0x30a0, chr 0x002d); (* Katakana-Hiragana Double Hyphen *)
    (chr 0xfe58, chr 0x002d); (* Small Em Dash *)
    (chr 0xfe63, chr 0x002d); (* Small Hyphen-Minus *)
    (chr 0xff0d, chr 0x002d); (* Fullwidth Hyphen-Minus *)
    (chr 0x0001104b, chr 0x002d); (* Brahmi Punctuation Line *)
    (chr 0x000110be, chr 0x002d); (* Kaithi Section Mark *)
    (chr 0x02ea, chr 0x300c); (* Modifier Letter Yin Departing Tone Mark *)
    (chr 0x02f9, chr 0x300c); (* Modifier Letter Begin High Tone *)
    (chr 0x02fb, chr 0x300c); (* Modifier Letter Begin Low Tone *)
    (chr 0x221f, chr 0x300c); (* Right Angle *)
    (chr 0x2308, chr 0x300c); (* Left Ceiling *)
    (chr 0x230a, chr 0x300c); (* Left Floor *)
    (chr 0x23a1, chr 0x300c); (* Left Square Bracket Upper Corner *)
    (chr 0x23a3, chr 0x300c); (* Left Square Bracket Lower Corner *)
    (chr 0x2a3d, chr 0x300c); (* Righthand Interior Product *)
    (chr 0x2e22, chr 0x300c); (* Top Left Half Bracket *)
    (chr 0x2e24, chr 0x300c); (* Bottom Left Half Bracket *)
    (chr 0x300c, chr 0x300c); (* Left Corner Bracket *)
    (chr 0x300e, chr 0x300c); (* Left White Corner Bracket *)
    (chr 0xa712, chr 0x300c); (* Modifier Letter Extra-High Left-Stem Tone Bar *)
    (chr 0xa716, chr 0x300c); (* Modifier Letter Extra-Low Left-Stem Tone Bar *)
    (chr 0xfe41, chr 0x300c); (* Presentation Form For Vertical Left Corner Bracket *)
    (chr 0xfe43, chr 0x300c); (* Presentation Form For Vertical Left White Corner Bracket *)
    (chr 0xff62, chr 0x300c); (* Halfwidth Left Corner Bracket *)
    (chr 0x007b, chr 0x007b); (* Left Curly Bracket *)
    (chr 0x23a8, chr 0x007b); (* Left Curly Bracket Middle Piece *)
    (chr 0x23de, chr 0x007b); (* Top Curly Bracket *)
    (chr 0x2774, chr 0x007b); (* Medium Left Curly Bracket Ornament *)
    (chr 0x2983, chr 0x007b); (* Left White Curly Bracket *)
    (chr 0xfe37, chr 0x007b); (* Presentation Form For Vertical Left Curly Bracket *)
    (chr 0xfe5b, chr 0x007b); (* Small Left Curly Bracket *)
    (chr 0xff5b, chr 0x007b); (* Fullwidth Left Curly Bracket *)
    (chr 0x201c, chr 0x201c); (* Left Double Quotation Mark *)
    (chr 0x201f, chr 0x201c); (* Double High-Reversed-9 Quotation Mark *)
    (chr 0x2036, chr 0x201c); (* Reversed Double Prime *)
    (chr 0x2037, chr 0x201c); (* Reversed Triple Prime *)
    (chr 0x2e42, chr 0x201c); (* Double Low-Reversed-9 Quotation Mark *)
    (chr 0x301d, chr 0x201c); (* Reversed Double Prime Quotation Mark *)
    (chr 0x309b, chr 0x201c); (* Katakana-Hiragana Voiced Sound Mark *)
    (chr 0x0028, chr 0x0028); (* Left Parenthesis *)
    (chr 0x02d3, chr 0x0028); (* Modifier Letter Centred Left Half Ring *)
    (chr 0x2040, chr 0x0028); (* Character Tie *)
    (chr 0x2054, chr 0x0028); (* Inverted Undertie *)
    (chr 0x207d, chr 0x0028); (* Superscript Left Parenthesis *)
    (chr 0x208d, chr 0x0028); (* Subscript Left Parenthesis *)
    (chr 0x23dc, chr 0x0028); (* Top Parenthesis *)
    (chr 0x2768, chr 0x0028); (* Medium Left Parenthesis Ornament *)
    (chr 0x276a, chr 0x0028); (* Medium Flattened Left Parenthesis Ornament *)
    (chr 0x2985, chr 0x0028); (* Left White Parenthesis *)
    (chr 0x2987, chr 0x0028); (* Z Notation Left Image Bracket *)
    (chr 0x2995, chr 0x0028); (* Double Left Arc Greater-Than Bracket *)
    (chr 0x2e26, chr 0x0028); (* Left Sideways U Bracket *)
    (chr 0x2e28, chr 0x0028); (* Left Double Parenthesis *)
    (chr 0xfd3e, chr 0x0028); (* Ornate Left Parenthesis *)
    (chr 0xfe35, chr 0x0028); (* Presentation Form For Vertical Left Parenthesis *)
    (chr 0xfe59, chr 0x0028); (* Small Left Parenthesis *)
    (chr 0xff08, chr 0x0028); (* Fullwidth Left Parenthesis *)
    (chr 0xff5f, chr 0x0028); (* Fullwidth Left White Parenthesis *)
    (chr 0x055d, chr 0x2018); (* Armenian Comma *)
    (chr 0x2018, chr 0x2018); (* Left Single Quotation Mark *)
    (chr 0x201b, chr 0x2018); (* Single High-Reversed-9 Quotation Mark *)
    (chr 0x2035, chr 0x2018); (* Reversed Prime *)
    (chr 0x2e0c, chr 0x2018); (* Left Raised Omission Bracket *)
    (chr 0x2e1c, chr 0x2018); (* Left Low Paraphrase Bracket *)
    (chr 0x00010ead, chr 0x2018); (* Yezidi Hyphenation Mark *)
    (chr 0x005b, chr 0x005b); (* Left Square Bracket *)
    (chr 0x2045, chr 0x005b); (* Left Square Bracket with Quill *)
    (chr 0x23e0, chr 0x005b); (* Top Tortoise Shell Bracket *)
    (chr 0x2772, chr 0x005b); (* Light Left Tortoise Shell Bracket Ornament *)
    (chr 0x27e6, chr 0x005b); (* Mathematical Left White Square Bracket *)
    (chr 0x27ec, chr 0x005b); (* Mathematical Left White Tortoise Shell Bracket *)
    (chr 0x27ee, chr 0x005b); (* Mathematical Left Flattened Parenthesis *)
    (chr 0x298b, chr 0x005b); (* Left Square Bracket with Underbar *)
    (chr 0x298d, chr 0x005b); (* Left Square Bracket with Tick In Top Corner *)
    (chr 0x298f, chr 0x005b); (* Left Square Bracket with Tick In Bottom Corner *)
    (chr 0x2997, chr 0x005b); (* Left Black Tortoise Shell Bracket *)
    (chr 0x3010, chr 0x005b); (* Left Black Lenticular Bracket *)
    (chr 0x3014, chr 0x005b); (* Left Tortoise Shell Bracket *)
    (chr 0x3016, chr 0x005b); (* Left White Lenticular Bracket *)
    (chr 0x3018, chr 0x005b); (* Left White Tortoise Shell Bracket *)
    (chr 0x301a, chr 0x005b); (* Left White Square Bracket *)
    (chr 0xfe17, chr 0x005b); (* Presentation Form For Vertical Left White Lenticular Bracket *)
    (chr 0xfe39, chr 0x005b); (* Presentation Form For Vertical Left Tortoise Shell Bracket *)
    (chr 0xfe3b, chr 0x005b); (* Presentation Form For Vertical Left Black Lenticular Bracket *)
    (chr 0xfe47, chr 0x005b); (* Presentation Form For Vertical Left Square Bracket *)
    (chr 0xfe5d, chr 0x005b); (* Small Left Tortoise Shell Bracket *)
    (chr 0xff3b, chr 0x005b); (* Fullwidth Left Square Bracket *)
    (chr 0x003c, chr 0x003c); (* Less-Than Sign *)
    (chr 0x00ab, chr 0x003c); (* Left-Pointing Double Angle Quotation Mark *)
    (chr 0x02c2, chr 0x003c); (* Modifier Letter Left Arrowhead *)
    (chr 0x02f1, chr 0x003c); (* Modifier Letter Low Left Arrowhead *)
    (chr 0x169c, chr 0x003c); (* Ogham Reversed Feather Mark *)
    (chr 0x2039, chr 0x003c); (* Single Left-Pointing Angle Quotation Mark *)
    (chr 0x2222, chr 0x003c); (* Spherical Angle *)
    (chr 0x2264, chr 0x003c); (* Less-Than or Equal To *)
    (chr 0x2266, chr 0x003c); (* Less-Than Over Equal To *)
    (chr 0x2268, chr 0x003c); (* Less-Than But Not Equal To *)
    (chr 0x226a, chr 0x003c); (* Much Less-Than *)
    (chr 0x226e, chr 0x003c); (* Not Less-Than *)
    (chr 0x2270, chr 0x003c); (* Neither Less-Than Nor Equal To *)
    (chr 0x2272, chr 0x003c); (* Less-Than or Equivalent To *)
    (chr 0x2274, chr 0x003c); (* Neither Less-Than Nor Equivalent To *)
    (chr 0x227a, chr 0x003c); (* Precedes *)
    (chr 0x227c, chr 0x003c); (* Precedes or Equal To *)
    (chr 0x227e, chr 0x003c); (* Precedes or Equivalent To *)
    (chr 0x2280, chr 0x003c); (* Does Not Precede *)
    (chr 0x22b0, chr 0x003c); (* Precedes Under Relation *)
    (chr 0x22d6, chr 0x003c); (* Less-Than with Dot *)
    (chr 0x22d8, chr 0x003c); (* Very Much Less-Than *)
    (chr 0x22dc, chr 0x003c); (* Equal to or Less-Than *)
    (chr 0x22de, chr 0x003c); (* Equal to or Precedes *)
    (chr 0x22e0, chr 0x003c); (* Does Not Precede or Equal *)
    (chr 0x22e6, chr 0x003c); (* Less-Than But Not Equivalent To *)
    (chr 0x22e8, chr 0x003c); (* Precedes But Not Equivalent To *)
    (chr 0x2329, chr 0x003c); (* Left-Pointing Angle Bracket *)
    (chr 0x276c, chr 0x003c); (* Medium Left-Pointing Angle Bracket Ornament *)
    (chr 0x276e, chr 0x003c); (* Heavy Left-Pointing Angle Quotation Mark Ornament *)
    (chr 0x2770, chr 0x003c); (* Heavy Left-Pointing Angle Bracket Ornament *)
    (chr 0x27e8, chr 0x003c); (* Mathematical Left Angle Bracket *)
    (chr 0x27ea, chr 0x003c); (* Mathematical Left Double Angle Bracket *)
    (chr 0x297c, chr 0x003c); (* Left Fish Tail *)
    (chr 0x2989, chr 0x003c); (* Z Notation Left Binding Bracket *)
    (chr 0x2991, chr 0x003c); (* Left Angle Bracket with Dot *)
    (chr 0x2993, chr 0x003c); (* Left Arc Less-Than Bracket *)
    (chr 0x29fc, chr 0x003c); (* Left-Pointing Curved Angle Bracket *)
    (chr 0x2a79, chr 0x003c); (* Less-Than with Circle Inside *)
    (chr 0x2a7b, chr 0x003c); (* Less-Than with Question Mark Above *)
    (chr 0x2a7d, chr 0x003c); (* Less-Than or Slanted Equal To *)
    (chr 0x2a7f, chr 0x003c); (* Less-Than or Slanted Equal to with Dot Inside *)
    (chr 0x2a81, chr 0x003c); (* Less-Than or Slanted Equal to with Dot Above *)
    (chr 0x2a83, chr 0x003c); (* Less-Than or Slanted Equal to with Dot Above Right *)
    (chr 0x2a85, chr 0x003c); (* Less-Than or Approximate *)
    (chr 0x2a87, chr 0x003c); (* Less-Than and Single-Line Not Equal To *)
    (chr 0x2a89, chr 0x003c); (* Less-Than and Not Approximate *)
    (chr 0x2a8d, chr 0x003c); (* Less-Than Above Similar or Equal *)
    (chr 0x2a95, chr 0x003c); (* Slanted Equal to or Less-Than *)
    (chr 0x2a97, chr 0x003c); (* Slanted Equal to or Less-Than with Dot Inside *)
    (chr 0x2a99, chr 0x003c); (* Double-Line Equal to or Less-Than *)
    (chr 0x2a9b, chr 0x003c); (* Double-Line Slanted Equal to or Less-Than *)
    (chr 0x2a9d, chr 0x003c); (* Similar or Less-Than *)
    (chr 0x2a9f, chr 0x003c); (* Similar Above Less-Than Above Equals Sign *)
    (chr 0x2aa1, chr 0x003c); (* Double Nested Less-Than *)
    (chr 0x2aa3, chr 0x003c); (* Double Nested Less-Than with Underbar *)
    (chr 0x2aac, chr 0x003c); (* Smaller Than or Equal To *)
    (chr 0x2aaf, chr 0x003c); (* Precedes Above Single-Line Equals Sign *)
    (chr 0x2ab1, chr 0x003c); (* Precedes Above Single-Line Not Equal To *)
    (chr 0x2ab3, chr 0x003c); (* Precedes Above Equals Sign *)
    (chr 0x2ab5, chr 0x003c); (* Precedes Above Not Equal To *)
    (chr 0x2ab7, chr 0x003c); (* Precedes Above Almost Equal To *)
    (chr 0x2ab9, chr 0x003c); (* Precedes Above Not Almost Equal To *)
    (chr 0x2abb, chr 0x003c); (* Double Precedes *)
    (chr 0x2af7, chr 0x003c); (* Triple Nested Less-Than *)
    (chr 0x2af9, chr 0x003c); (* Double-Line Slanted Less-Than or Equal To *)
    (chr 0x2e02, chr 0x003c); (* Left Substitution Bracket *)
    (chr 0x2e04, chr 0x003c); (* Left Dotted Substitution Bracket *)
    (chr 0x3008, chr 0x003c); (* Left Angle Bracket *)
    (chr 0x300a, chr 0x003c); (* Left Double Angle Bracket *)
    (chr 0xfe3d, chr 0x003c); (* Presentation Form For Vertical Left Double Angle Bracket *)
    (chr 0xfe3f, chr 0x003c); (* Presentation Form For Vertical Left Angle Bracket *)
    (chr 0xfe64, chr 0x003c); (* Small Less-Than Sign *)
    (chr 0xff1c, chr 0x003c); (* Fullwidth Less-Than Sign *)
    (chr 0x005f, chr 0x005f); (* Low Line *)
    (chr 0x2e0f, chr 0x005f); (* Paragraphos *)
    (chr 0x2e10, chr 0x005f); (* Forked Paragraphos *)
    (chr 0x2e11, chr 0x005f); (* Reversed Forked Paragraphos *)
    (chr 0xfe4d, chr 0x005f); (* Dashed Low Line *)
    (chr 0xfe4e, chr 0x005f); (* Centreline Low Line *)
    (chr 0xfe4f, chr 0x005f); (* Wavy Low Line *)
    (chr 0xff3f, chr 0x005f); (* Fullwidth Low Line *)
    (chr 0x00d7, chr 0x00d7); (* Multiplication Sign *)
    (chr 0x02df, chr 0x00d7); (* Modifier Letter Cross Accent *)
    (chr 0x166e, chr 0x00d7); (* Canadian Syllabics Full Stop *)
    (chr 0x1c3d, chr 0x00d7); (* Lepcha Punctuation Cer-Wa *)
    (chr 0x1c3e, chr 0x00d7); (* Lepcha Punctuation Tshook Cer-Wa *)
    (chr 0x2a09, chr 0x00d7); (* N-Ary Times Operator *)
    (chr 0x2a2f, chr 0x00d7); (* Vector or Cross Product *)
    (chr 0x2a30, chr 0x00d7); (* Multiplication Sign with Dot Above *)
    (chr 0x2a31, chr 0x00d7); (* Multiplication Sign with Underbar *)
    (chr 0x2a32, chr 0x00d7); (* Semidirect Product with Bottom Closed *)
    (chr 0x2e3c, chr 0x00d7); (* Stenographic Full Stop *)
    (chr 0x00010102, chr 0x00d7); (* Aegean Check Mark *)
    (chr 0x0025, chr 0x0025); (* Percent Sign *)
    (chr 0x0609, chr 0x0025); (* Arabic-Indic Per Mille Sign *)
    (chr 0x060a, chr 0x0025); (* Arabic-Indic Per Ten Thousand Sign *)
    (chr 0x066a, chr 0x0025); (* Arabic Percent Sign *)
    (chr 0x2030, chr 0x0025); (* Per Mille Sign *)
    (chr 0x2031, chr 0x0025); (* Per Ten Thousand Sign *)
    (chr 0x2052, chr 0x0025); (* Commercial Minus Sign *)
    (chr 0x2e13, chr 0x0025); (* Dotted Obelos *)
    (chr 0xfe6a, chr 0x0025); (* Small Percent Sign *)
    (chr 0xff05, chr 0x0025); (* Fullwidth Percent Sign *)
    (chr 0x002b, chr 0x002b); (* Plus Sign *)
    (chr 0x16ed, chr 0x002b); (* Runic Cross Punctuation *)
    (chr 0x207a, chr 0x002b); (* Superscript Plus Sign *)
    (chr 0x208a, chr 0x002b); (* Subscript Plus Sign *)
    (chr 0x2214, chr 0x002b); (* Dot Plus *)
    (chr 0x29fe, chr 0x002b); (* Tiny *)
    (chr 0x2a22, chr 0x002b); (* Plus Sign with Small Circle Above *)
    (chr 0x2a23, chr 0x002b); (* Plus Sign with Circumflex Accent Above *)
    (chr 0x2a24, chr 0x002b); (* Plus Sign with Tilde Above *)
    (chr 0x2a25, chr 0x002b); (* Plus Sign with Dot Below *)
    (chr 0x2a26, chr 0x002b); (* Plus Sign with Tilde Below *)
    (chr 0x2a27, chr 0x002b); (* Plus Sign with Subscript Two *)
    (chr 0x2a28, chr 0x002b); (* Plus Sign with Black Triangle *)
    (chr 0xfe62, chr 0x002b); (* Small Plus Sign *)
    (chr 0xff0b, chr 0x002b); (* Fullwidth Plus Sign *)
    (chr 0x003f, chr 0x003f); (* Question Mark *)
    (chr 0x00bf, chr 0x003f); (* Inverted Question Mark *)
    (chr 0x061f, chr 0x003f); (* Arabic Question Mark *)
    (chr 0x2047, chr 0x003f); (* Double Question Mark *)
    (chr 0x2048, chr 0x003f); (* Question Exclamation Mark *)
    (chr 0x2049, chr 0x003f); (* Exclamation Question Mark *)
    (chr 0x2e18, chr 0x003f); (* Inverted Interrobang *)
    (chr 0x2e2e, chr 0x003f); (* Reversed Question Mark *)
    (chr 0x2e4c, chr 0x003f); (* Medieval Comma *)
    (chr 0xfe16, chr 0x003f); (* Presentation Form For Vertical Question Mark *)
    (chr 0xfe56, chr 0x003f); (* Small Question Mark *)
    (chr 0xff1f, chr 0x003f); (* Fullwidth Question Mark *)
    (chr 0x000119e2, chr 0x003f); (* Nandinagari Sign Siddham *)
    (chr 0x0022, chr 0x0022); (* Quotation Mark *)
    (chr 0xff02, chr 0x0022); (* Fullwidth Quotation Mark *)
    (chr 0x00011944, chr 0x0022); (* Dives Akuru Double Danda *)
    (chr 0x005c, chr 0x005c); (* Reverse Solidus *)
    (chr 0x2216, chr 0x005c); (* Set Minus *)
    (chr 0x29f5, chr 0x005c); (* Reverse Solidus Operator *)
    (chr 0x29f7, chr 0x005c); (* Reverse Solidus with Horizontal Stroke *)
    (chr 0x29f9, chr 0x005c); (* Big Reverse Solidus *)
    (chr 0x2cf9, chr 0x005c); (* Coptic Old Nubian Full Stop *)
    (chr 0x2cfb, chr 0x005c); (* Coptic Old Nubian Indirect Question Mark *)
    (chr 0xfe68, chr 0x005c); (* Small Reverse Solidus *)
    (chr 0xff3c, chr 0x005c); (* Fullwidth Reverse Solidus *)
    (chr 0x02e5, chr 0x300d); (* Modifier Letter Extra-High Tone Bar *)
    (chr 0x02e9, chr 0x300d); (* Modifier Letter Extra-Low Tone Bar *)
    (chr 0x02fa, chr 0x300d); (* Modifier Letter End High Tone *)
    (chr 0x02fc, chr 0x300d); (* Modifier Letter End Low Tone *)
    (chr 0x02fe, chr 0x300d); (* Modifier Letter Open Shelf *)
    (chr 0x2142, chr 0x300d); (* Turned Sans-Serif Capital L *)
    (chr 0x2143, chr 0x300d); (* Reversed Sans-Serif Capital L *)
    (chr 0x2309, chr 0x300d); (* Right Ceiling *)
    (chr 0x230b, chr 0x300d); (* Right Floor *)
    (chr 0x23a4, chr 0x300d); (* Right Square Bracket Upper Corner *)
    (chr 0x23a6, chr 0x300d); (* Right Square Bracket Lower Corner *)
    (chr 0x2a3c, chr 0x300d); (* Interior Product *)
    (chr 0x2e23, chr 0x300d); (* Top Right Half Bracket *)
    (chr 0x2e25, chr 0x300d); (* Bottom Right Half Bracket *)
    (chr 0x300d, chr 0x300d); (* Right Corner Bracket *)
    (chr 0x300f, chr 0x300d); (* Right White Corner Bracket *)
    (chr 0xfe42, chr 0x300d); (* Presentation Form For Vertical Right Corner Bracket *)
    (chr 0xfe44, chr 0x300d); (* Presentation Form For Vertical Right White Corner Bracket *)
    (chr 0xff63, chr 0x300d); (* Halfwidth Right Corner Bracket *)
    (chr 0x007d, chr 0x007d); (* Right Curly Bracket *)
    (chr 0x23ac, chr 0x007d); (* Right Curly Bracket Middle Piece *)
    (chr 0x23df, chr 0x007d); (* Bottom Curly Bracket *)
    (chr 0x2775, chr 0x007d); (* Medium Right Curly Bracket Ornament *)
    (chr 0x2984, chr 0x007d); (* Right White Curly Bracket *)
    (chr 0xfe38, chr 0x007d); (* Presentation Form For Vertical Right Curly Bracket *)
    (chr 0xfe5c, chr 0x007d); (* Small Right Curly Bracket *)
    (chr 0xff5d, chr 0x007d); (* Fullwidth Right Curly Bracket *)
    (chr 0x05f4, chr 0x201d); (* Hebrew Punctuation Gershayim *)
    (chr 0x1cd3, chr 0x201d); (* Vedic Sign Nihshvasa *)
    (chr 0x201d, chr 0x201d); (* Right Double Quotation Mark *)
    (chr 0x2033, chr 0x201d); (* Double Prime *)
    (chr 0x2034, chr 0x201d); (* Triple Prime *)
    (chr 0x2057, chr 0x201d); (* Quadruple Prime *)
    (chr 0x2e17, chr 0x201d); (* Double Oblique Hyphen *)
    (chr 0x3003, chr 0x201d); (* Ditto Mark *)
    (chr 0x301e, chr 0x201d); (* Double Prime Quotation Mark *)
    (chr 0x301f, chr 0x201d); (* Low Double Prime Quotation Mark *)
    (chr 0x0029, chr 0x0029); (* Right Parenthesis *)
    (chr 0x02d2, chr 0x0029); (* Modifier Letter Centred Right Half Ring *)
    (chr 0x203f, chr 0x0029); (* Undertie *)
    (chr 0x207e, chr 0x0029); (* Superscript Right Parenthesis *)
    (chr 0x208e, chr 0x0029); (* Subscript Right Parenthesis *)
    (chr 0x23dd, chr 0x0029); (* Bottom Parenthesis *)
    (chr 0x2769, chr 0x0029); (* Medium Right Parenthesis Ornament *)
    (chr 0x276b, chr 0x0029); (* Medium Flattened Right Parenthesis Ornament *)
    (chr 0x2986, chr 0x0029); (* Right White Parenthesis *)
    (chr 0x2988, chr 0x0029); (* Z Notation Right Image Bracket *)
    (chr 0x2996, chr 0x0029); (* Double Right Arc Less-Than Bracket *)
    (chr 0x2e27, chr 0x0029); (* Right Sideways U Bracket *)
    (chr 0x2e29, chr 0x0029); (* Right Double Parenthesis *)
    (chr 0xfd3f, chr 0x0029); (* Ornate Right Parenthesis *)
    (chr 0xfe36, chr 0x0029); (* Presentation Form For Vertical Right Parenthesis *)
    (chr 0xfe5a, chr 0x0029); (* Small Right Parenthesis *)
    (chr 0xff09, chr 0x0029); (* Fullwidth Right Parenthesis *)
    (chr 0xff60, chr 0x0029); (* Fullwidth Right White Parenthesis *)
    (chr 0x0384, chr 0x2019); (* Greek Tonos *)
    (chr 0x055a, chr 0x2019); (* Armenian Apostrophe *)
    (chr 0x055b, chr 0x2019); (* Armenian Emphasis Mark *)
    (chr 0x05f3, chr 0x2019); (* Hebrew Punctuation Geresh *)
    (chr 0x2019, chr 0x2019); (* Right Single Quotation Mark *)
    (chr 0x2032, chr 0x2019); (* Prime *)
    (chr 0x2e0d, chr 0x2019); (* Right Raised Omission Bracket *)
    (chr 0x2e1d, chr 0x2019); (* Right Low Paraphrase Bracket *)
    (chr 0x2cff, chr 0x2019); (* Coptic Morphological Divider *)
    (chr 0xfe10, chr 0x2019); (* Presentation Form For Vertical Comma *)
    (chr 0xfe11, chr 0x2019); (* Presentation Form For Vertical Ideographic Comma *)
    (chr 0x005d, chr 0x005d); (* Right Square Bracket *)
    (chr 0x2046, chr 0x005d); (* Right Square Bracket with Quill *)
    (chr 0x23e1, chr 0x005d); (* Bottom Tortoise Shell Bracket *)
    (chr 0x2773, chr 0x005d); (* Light Right Tortoise Shell Bracket Ornament *)
    (chr 0x27e7, chr 0x005d); (* Mathematical Right White Square Bracket *)
    (chr 0x27ed, chr 0x005d); (* Mathematical Right White Tortoise Shell Bracket *)
    (chr 0x27ef, chr 0x005d); (* Mathematical Right Flattened Parenthesis *)
    (chr 0x298c, chr 0x005d); (* Right Square Bracket with Underbar *)
    (chr 0x298e, chr 0x005d); (* Right Square Bracket with Tick In Bottom Corner *)
    (chr 0x2990, chr 0x005d); (* Right Square Bracket with Tick In Top Corner *)
    (chr 0x2998, chr 0x005d); (* Right Black Tortoise Shell Bracket *)
    (chr 0x3011, chr 0x005d); (* Right Black Lenticular Bracket *)
    (chr 0x3015, chr 0x005d); (* Right Tortoise Shell Bracket *)
    (chr 0x3017, chr 0x005d); (* Right White Lenticular Bracket *)
    (chr 0x3019, chr 0x005d); (* Right White Tortoise Shell Bracket *)
    (chr 0x301b, chr 0x005d); (* Right White Square Bracket *)
    (chr 0xfe18, chr 0x005d); (* Presentation Form For Vertical Right White Lenticular Brakcet *)
    (chr 0xfe3a, chr 0x005d); (* Presentation Form For Vertical Right Tortoise Shell Bracket *)
    (chr 0xfe3c, chr 0x005d); (* Presentation Form For Vertical Right Black Lenticular Bracket *)
    (chr 0xfe48, chr 0x005d); (* Presentation Form For Vertical Right Square Bracket *)
    (chr 0xfe5e, chr 0x005d); (* Small Right Tortoise Shell Bracket *)
    (chr 0xff3d, chr 0x005d); (* Fullwidth Right Square Bracket *)
    (chr 0x003b, chr 0x003b); (* Semicolon *)
    (chr 0x061b, chr 0x003b); (* Arabic Semicolon *)
    (chr 0x037e, chr 0x003b); (* Greek Question Mark *)
    (chr 0x204f, chr 0x003b); (* Reversed Semicolon *)
    (chr 0x2a1f, chr 0x003b); (* Z Notation Schema Composition *)
    (chr 0x2a3e, chr 0x003b); (* Z Notation Relational Composition *)
    (chr 0x2e35, chr 0x003b); (* Turned Semicolon *)
    (chr 0x2e44, chr 0x003b); (* Double Suspension Mark *)
    (chr 0x2e49, chr 0x003b); (* Double Stacked Comma *)
    (chr 0x2e4e, chr 0x003b); (* Punctus Elevatus Mark *)
    (chr 0xa9c7, chr 0x003b); (* Javanese Pada Pangkat *)
    (chr 0xfe14, chr 0x003b); (* Presentation Form For Vertical Semicolon *)
    (chr 0xfe54, chr 0x003b); (* Small Semicolon *)
    (chr 0xff1b, chr 0x003b); (* Fullwidth Semicolon *)
    (chr 0x0001145a, chr 0x003b); (* Newa Double Comma *)
    (chr 0x00a7, chr 0x00a7); (* Section Sign *)
    (chr 0x00b6, chr 0x00a7); (* Pilcrow Sign *)
    (chr 0x204b, chr 0x00a7); (* Reversed Pilcrow Sign *)
    (chr 0x002f, chr 0x002f); (* Solidus *)
    (chr 0x060d, chr 0x002f); (* Arabic Date Separator *)
    (chr 0x1735, chr 0x002f); (* Philippine Single Punctuation *)
    (chr 0x1736, chr 0x002f); (* Philippine Double Punctuation *)
    (chr 0x2044, chr 0x002f); (* Fraction Slash *)
    (chr 0x2215, chr 0x002f); (* Division Slash *)
    (chr 0x29f6, chr 0x002f); (* Solidus with Overbar *)
    (chr 0x29f8, chr 0x002f); (* Big Solidus *)
    (chr 0x2afb, chr 0x002f); (* Triple Solidus Binary Relation *)
    (chr 0x2afd, chr 0x002f); (* Double Solidus Operator *)
    (chr 0x2cfa, chr 0x002f); (* Coptic Old Nubian Direct Question Mark *)
    (chr 0x2cfc, chr 0x002f); (* Coptic Old Nubian Verse Divider *)
    (chr 0x2d70, chr 0x002f); (* Tifinagh Separator Mark *)
    (chr 0x2e4a, chr 0x002f); (* Dotted Solidus *)
    (chr 0xa6f3, chr 0x002f); (* Bamum Full Stop *)
    (chr 0xa6f4, chr 0x002f); (* Bamum Colon *)
    (chr 0xff0f, chr 0x002f); (* Fullwidth Solidus *)
    (chr 0x007e, chr 0x007e); (* Tilde *)
    (chr 0x02dc, chr 0x007e); (* Small Tilde *)
    (chr 0x02f7, chr 0x007e); (* Modifier Letter Low Tilde *)
    (chr 0x055c, chr 0x007e); (* Armenian Exclamation Mark *)
    (chr 0x1fc0, chr 0x007e); (* Greek Perispomeni *)
    (chr 0x2053, chr 0x007e); (* Swung Dash *)
    (chr 0x223b, chr 0x007e); (* Homothetic *)
    (chr 0x223c, chr 0x007e); (* Tilde Operator *)
    (chr 0x223d, chr 0x007e); (* Reversed Tilde *)
    (chr 0x223e, chr 0x007e); (* Inverted Lazy S *)
    (chr 0x223f, chr 0x007e); (* Sine Wave *)
    (chr 0x2241, chr 0x007e); (* Not Tilde *)
    (chr 0x2a6a, chr 0x007e); (* Tilde Operator with Dot Above *)
    (chr 0x2a6b, chr 0x007e); (* Tilde Operator with Rising Dots *)
    (chr 0x2e09, chr 0x007e); (* Left Transposition Bracket *)
    (chr 0x2e0a, chr 0x007e); (* Right Transposition Bracket *)
    (chr 0x301c, chr 0x007e); (* Wave Dash *)
    (chr 0x3030, chr 0x007e); (* Wavy Dash *)
    (chr 0xff5e, chr 0x007e)  (* Fullwidth Tilde *)
  ].

Definition unicode_map : gmap str str := dict_display unicode_map_items.

(** ** The methods *)

Section Methods.

(** The general category table of the Unicode Character Database, as
    [unicodedata] holds it: a two-letter code for each code point. *)
Variable general_category : codepoint → string.

(** [unicodedata.category(chr)]: raises [TypeError] unless its argument is
    a string of exactly one character. *)
Definition unicodedata_category (c : str) : result string :=
  match c with
  | [cp] => Ok (general_category cp)
  | _ => Raise TypeError
  end.

Definition __is_unicode_category_allowed (char : str) : result bool :=
  cat ← unicodedata_category char;
  mret (bool_decide (cat ∉ disallowed_unicode_category)).

Definition __replace_character (char : str) : result str :=
  match unicode_map !! char with
  | Some norm_char => mret norm_char
  | None =>
      allowed ← __is_unicode_category_allowed char;
      if allowed : bool then mret char else mret []
  end.

Definition normalize_text (text : str) : result str :=
  str_join [] <$> mapM __replace_character (str_iter text).

End Methods.

End MapUnicodesTextNormalizer.

Import MapUnicodesTextNormalizer.

(** ** An excerpt of the Unicode Character Database

    The general categories of Basic Latin (U+0000 to U+007F) and of a few
    code points beyond it, as ranges [(first, last, category)].  Code points
    outside the excerpt are reported as unassigned ([Cn]).  The excerpt is
    only used to run the methods on concrete text. *)
Definition ucd_excerpt_ranges : list (N * N * string) :=
  [ (0x00, 0x1f, "Cc"); (0x20, 0x20, "Zs"); (0x21, 0x23, "Po");
    (0x24, 0x24, "Sc"); (0x25, 0x27, "Po"); (0x28, 0x28, "Ps");
    (0x29, 0x29, "Pe"); (0x2a, 0x2a, "Po"); (0x2b, 0x2b, "Sm");
    (0x2c, 0x2c, "Po"); (0x2d, 0x2d, "Pd"); (0x2e, 0x2f, "Po");
    (0x30, 0x39, "Nd"); (0x3a, 0x3b, "Po"); (0x3c, 0x3e, "Sm");
    (0x3f, 0x40, "Po"); (0x41, 0x5a, "Lu"); (0x5b, 0x5b, "Ps");
    (0x5c, 0x5c, "Po"); (0x5d, 0x5d, "Pe"); (0x5e, 0x5e, "Sk");
    (0x5f, 0x5f, "Pc"); (0x60, 0x60, "Sk"); (0x61, 0x7a, "Ll");
    (0x7b, 0x7b, "Ps"); (0x7c, 0x7c, "Sm"); (0x7d, 0x7d, "Pe");
    (0x7e, 0x7e, "Sm"); (0x7f, 0x7f, "Cc");
    (0x2013, 0x2014, "Pd"); (0xff0c, 0xff0c, "Po");
    (0x16b3a, 0x16b3a, "Po") ]%N%string.

Definition ucd_excerpt (cp : codepoint) : string :=
  match find (λ r : N * N * string, (r.1.1 <=? cp)%N && (cp <=? r.1.2)%N)
             ucd_excerpt_ranges with
  | Some r => r.2
  | None => "Cn"
  end.

(** The fifteen category codes that the specification lists for the
    disallowed set. *)
Definition documented_categories : list string :=
  [ "Cc"; "Cf"; "Mc"; "Me"; "Mn"; "Pc"; "Pd"; "Pe";
    "Pf"; "Pi"; "Po"; "Sm"; "So"; "Zl"; "Zp" ]%string.

(** The per-character outcome as one pure function of the code point:
    the replacement when mapped, nothing when dropped, the character itself
    when allowed. *)
Definition emitted (general_category : codepoint → string)
    (cp : codepoint) : str :=
  match unicode_map !! chr cp with
  | Some norm_char => norm_char
  | None =>
      if bool_decide (general_category cp ∈ disallowed_unicode_category)
      then [] else chr cp
  end.

(** The distinct replacements of the [unicode_map] display. *)
Definition unicode_map_values : list str :=
  remove_dups (unicode_map_items.*2).

(** ASCII digits, capital letters and small letters. *)
Definition is_ascii_alnum (cp : codepoint) : bool :=
  ((0x30 <=? cp) && (cp <=? 0x39) ||
   (0x41 <=? cp) && (cp <=? 0x5a) ||
   (0x61 <=? cp) && (cp <=? 0x7a))%N.

(** A category table that differs from the excerpt on En Dash only. *)
Definition ucd_excerpt_dash_letter (cp : codepoint) : string :=
  if (cp =? 0x2013)%N then "Ll" else ucd_excerpt cp.

(** The characters that are returned as they are: the keys that are their
    own replacement, and the characters that are not keys and whose
    category is allowed. *)
Definition kept (general_category : codepoint → string)
    (cp : codepoint) : Prop :=
  unicode_map !! chr cp = Some (chr cp) ∨
  (unicode_map !! chr cp = None ∧
   general_category cp ∉ disallowed_unicode_category).

(** The characters that are deleted: not keys, and of a disallowed
    category. *)
Definition dropped (general_category : codepoint → string)
    (cp : codepoint) : Prop :=
  unicode_map !! chr cp = None ∧
  general_category cp ∈ disallowed_unicode_category.

#[global] Instance dropped_dec general_category cp :
  Decision (dropped general_category cp).
Proof. unfold dropped. apply _. Defined.

(** * Properties *)

(** ** Strings and dict displays *)

Lemma Ok_inj {A} (a b : A) : Ok a = Ok b → a = b.
Proof. congruence. Qed.

Lemma str_join_empty_sep (parts : list str) : str_join [] parts = concat parts.
Proof.
  induction parts as [|p [|q ps] IH]; simpl in *.
  - done.
  - by rewrite app_nil_r.
  - by rewrite IH.
Qed.

Lemma str_iter_length (text : str) : length (str_iter text) = length text.
Proof. apply length_fmap. Qed.

Lemma str_iter_chars (text : str) : Forall (λ c : str, length c = 1) (str_iter text).
Proof. unfold str_iter. apply Forall_fmap, Forall_true. done. Qed.

Lemma dict_display_lookup_acc {V} (items : list (str * V)) (d : gmap str V) k v :
  foldl (λ d kv, <[kv.1 := kv.2]> d) d items !! k = Some v →
  (k, v) ∈ items ∨ d !! k = Some v.
Proof.
  revert d. induction items as [|[k' v'] items IH]; intros d; simpl.
  - by right.
  - intros H. destruct (IH _ H) as [Hin|Hd].
    + left. by apply list_elem_of_further.
    + destruct (decide (k' = k)) as [->|Hne].
      * rewrite lookup_insert_eq in Hd. injection Hd as ->. left. apply list_elem_of_here.
      * rewrite lookup_insert_ne in Hd by done. by right.
Qed.

Lemma dict_display_lookup_elem {V} (items : list (str * V)) k v :
  dict_display items !! k = Some v → (k, v) ∈ items.
Proof.
  intros H. destruct (dict_display_lookup_acc items ∅ k v H) as [?|Hd]; [done|].
  by rewrite lookup_empty in Hd.
Qed.

(** ** The mapping table *)

(** Every item of the display survives in the dict with its own value: no
    key is repeated. *)
Lemma unicode_map_items_lookup k v :
  (k, v) ∈ unicode_map_items → unicode_map !! k = Some v.
Proof.
  revert k v.
  assert (Forall (λ kv : str * str, unicode_map !! kv.1 = Some kv.2) unicode_map_items) as H.
  { apply Forall_forall. intros kv Hin.
    assert (forallb (λ kv : str * str, bool_decide (unicode_map !! kv.1 = Some kv.2))
              unicode_map_items = true) as Hb by (vm_compute; reflexivity).
    rewrite forallb_forall in Hb. apply list_elem_of_In, Hb in Hin.
    by apply bool_decide_eq_true in Hin. }
  intros k v Hin. by apply (proj1 (Forall_forall _ _) H (k, v)).
Qed.

Lemma unicode_map_lookup_elem k v :
  unicode_map !! k = Some v → (k, v) ∈ unicode_map_items.
Proof. apply dict_display_lookup_elem. Qed.

(** A boolean check that holds of every item of the display holds of every
    binding of the dict. *)
Lemma unicode_map_check (P : str → str → bool) :
  forallb (λ kv : str * str, P kv.1 kv.2) unicode_map_items = true →
  ∀ k v, unicode_map !! k = Some v → P k v = true.
Proof.
  intros Hb k v Hkv. apply dict_display_lookup_elem in Hkv.
  rewrite forallb_forall in Hb. by apply list_elem_of_In, Hb in Hkv.
Qed.

(** Every replacement is itself a key, and is its own replacement. *)
Lemma unicode_map_value_fixed k v :
  unicode_map !! k = Some v → unicode_map !! v = Some v.
Proof.
  intros Hkv.
  apply (unicode_map_check (λ _ v, bool_decide (unicode_map !! v = Some v))) in Hkv.
  - by apply bool_decide_eq_true in Hkv.
  - vm_compute; reflexivity.
Qed.

(** Every key and every replacement is a single character. *)
Lemma unicode_map_chars k v :
  unicode_map !! k = Some v → length k = 1 ∧ length v = 1.
Proof.
  intros Hkv.
  apply (unicode_map_check
           (λ k v, bool_decide (length k = 1) && bool_decide (length v = 1))) in Hkv.
  - apply andb_true_iff in Hkv as [Hk Hv].
    split; by eapply bool_decide_eq_true.
  - vm_compute; reflexivity.
Qed.

(** The table is only reasoned about through the lemmas above and through
    evaluation; proof search never unfolds it. *)
#[global] Opaque unicode_map.
#[global] Typeclasses Opaque unicode_map.

(** ** The methods *)

Section MethodFacts.

Variable general_category : codepoint → string.

Local Abbreviation replace_char := (__replace_character general_category).
Local Abbreviation normalize := (normalize_text general_category).
Local Abbreviation emit := (emitted general_category).

(** On a character, [__replace_character] returns and its result is
    [emitted]. *)
Lemma replace_character_chr cp : replace_char (chr cp) = Ok (emit cp).
Proof.
  unfold __replace_character, emitted.
  destruct (unicode_map !! chr cp) as [r|]; [done|].
  simpl. rewrite bool_decide_not.
  by destruct (bool_decide (general_category cp ∈ disallowed_unicode_category)).
Qed.

(** [normalize_text] returns, and its result is the concatenation of what
    each character emits. *)
Lemma normalize_text_emitted text :
  normalize text = Ok (concat (emit <$> text)).
Proof.
  unfold normalize_text.
  assert (mapM replace_char (str_iter text) = Ok (emit <$> text)) as ->.
  { induction text as [|cp text IH]; [done|].
    unfold str_iter in *. rewrite fmap_cons. cbn [mapM].
    rewrite replace_character_chr, IH. reflexivity. }
  simpl. by rewrite str_join_empty_sep.
Qed.

Lemma normalize_text_chr cp : normalize (chr cp) = Ok (emit cp).
Proof.
  rewrite normalize_text_emitted. unfold chr at 1.
  rewrite fmap_cons, fmap_nil. cbn [concat]. by rewrite app_nil_r.
Qed.

Lemma emitted_length cp : length (emit cp) ≤ 1.
Proof.
  unfold emitted.
  destruct (unicode_map !! chr cp) as [r|] eqn:Hr.
  - apply unicode_map_chars in Hr as [_ ->]. done.
  - case_bool_decide; simpl; lia.
Qed.

Lemma emitted_mapped cp r : unicode_map !! chr cp = Some r → emit cp = r.
Proof. unfold emitted. by intros ->. Qed.

Lemma emitted_dropped cp :
  unicode_map !! chr cp = None →
  general_category cp ∈ disallowed_unicode_category → emit cp = [].
Proof. unfold emitted. intros -> ?. by rewrite bool_decide_eq_true_2. Qed.

Lemma emitted_allowed cp :
  unicode_map !! chr cp = None →
  general_category cp ∉ disallowed_unicode_category → emit cp = chr cp.
Proof. unfold emitted. intros -> ?. by rewrite bool_decide_eq_false_2. Qed.

(** Whatever a character emits is emitted unchanged in turn. *)
Lemma emitted_fixed cp : concat (emit <$> emit cp) = emit cp.
Proof.
  destruct (unicode_map !! chr cp) as [r|] eqn:Hr.
  - rewrite (emitted_mapped _ _ Hr).
    pose proof (unicode_map_value_fixed _ _ Hr) as Hfix.
    apply unicode_map_chars in Hr as [_ Hlen].
    destruct r as [|c [|??]]; [discriminate Hlen| |discriminate Hlen].
    rewrite fmap_cons, fmap_nil. cbn [concat].
    rewrite (emitted_mapped c [c] Hfix). apply app_nil_r.
  - destruct (decide (general_category cp ∈ disallowed_unicode_category)) as [Hd|Hd].
    + by rewrite emitted_dropped.
    + rewrite emitted_allowed by done. simpl.
      rewrite emitted_allowed by done. done.
Qed.

(** A character inside a text contributes what it emits, between the
    results of the text before it and of the text after it. *)
Lemma normalize_text_around cp s1 s2 :
  ∃ o1 o2,
    normalize s1 = Ok o1 ∧
    normalize s2 = Ok o2 ∧
    normalize (s1 ++ chr cp ++ s2) = Ok (o1 ++ emit cp ++ o2).
Proof.
  eexists _, _. split; [apply normalize_text_emitted|].
  split; [apply normalize_text_emitted|].
  rewrite !normalize_text_emitted, !fmap_app, !concat_app.
  unfold chr at 1. rewrite fmap_cons, fmap_nil. cbn [concat].
  by rewrite app_nil_r.
Qed.

Lemma emitted_pieces text :
  Forall2 (λ cp p, replace_char (chr cp) = Ok p ∧ length p ≤ 1)
          text (emit <$> text).
Proof.
  induction text as [|cp text IH]; [constructor|].
  rewrite fmap_cons. constructor; [|exact IH].
  split; [apply replace_character_chr|apply emitted_length].
Qed.

Lemma emitted_concat_length text : length (concat (emit <$> text)) ≤ length text.
Proof.
  induction text as [|cp text IH]; [done|].
  rewrite fmap_cons. cbn [concat]. rewrite length_app, length_cons.
  pose proof (emitted_length cp). lia.
Qed.

Lemma emitted_concat_fixed text :
  concat (emit <$> concat (emit <$> text)) = concat (emit <$> text).
Proof.
  induction text as [|cp text IH]; [done|].
  rewrite fmap_cons. cbn [concat].
  by rewrite fmap_app, concat_app, emitted_fixed, IH.
Qed.

End MethodFacts.

(** ** The disallowed categories *)

Lemma disallowed_unicode_category_elem (cat : string) :
  cat ∈ disallowed_unicode_category ↔
  cat ∈ documented_categories ∨ cat = "Ps"%string.
Proof.
  unfold disallowed_unicode_category, documented_categories.
  rewrite elem_of_list_to_set, !elem_of_cons, elem_of_nil. tauto.
Qed.

(** Closed goals about the tables are settled by evaluation. *)
Ltac by_evaluation :=
  lazymatch goal with
  | |- _ = _ => vm_compute; reflexivity
  | |- _ => apply (bool_decide_unpack _); vm_compute; exact I
  end.

(** ** Runs *)

(** The error path of the model is live: on a string that is not one
    character and not a key, [unicodedata.category] raises. *)
Example replace_character_not_a_character (general_category : codepoint → string) :
  __replace_character general_category [] = Raise TypeError ∧
  __replace_character general_category [0x61; 0x62]%N = Raise TypeError.
Proof.
  unfold __replace_character.
  replace (unicode_map !! []) with (@None (list N)) by (symmetry; by_evaluation).
  replace (unicode_map !! [0x61; 0x62]%N) with (@None (list N))
    by (symmetry; by_evaluation).
  split; reflexivity.
Qed.

Example normalize_text_empty : normalize_text ucd_excerpt [] = Ok [].
Proof. by_evaluation. Qed.

Example normalize_text_letter : normalize_text ucd_excerpt (chr 0x61) = Ok (chr 0x61).
Proof. by_evaluation. Qed.

Example normalize_text_brackets :
  normalize_text ucd_excerpt [0x28; 0x61; 0x29; 0x21; 0x24]%N =
  Ok [0x28; 0x61; 0x29; 0x24]%N.
Proof. by_evaluation. Qed.

(** * The claims *)

(** C1.  For every single character [c], the decision is taken in this
    order: when [c] is a key of the mapping table its replacement, a single
    character, is returned, whatever the general category of [c] is, so also
    when that category is disallowed; otherwise, when the category of [c] is
    disallowed, nothing is returned; otherwise [c] itself is returned.
    [normalize_text] on the one-character text gives the same. *)
Theorem replace_character_decision_order
    (general_category : codepoint → string) (cp : codepoint) :
  (∀ r, unicode_map !! chr cp = Some r →
     length r = 1 ∧
     __replace_character general_category (chr cp) = Ok r ∧
     normalize_text general_category (chr cp) = Ok r) ∧
  (unicode_map !! chr cp = None →
   general_category cp ∈ disallowed_unicode_category →
     __replace_character general_category (chr cp) = Ok [] ∧
     normalize_text general_category (chr cp) = Ok []) ∧
  (unicode_map !! chr cp = None →
   general_category cp ∉ disallowed_unicode_category →
     __replace_character general_category (chr cp) = Ok (chr cp) ∧
     normalize_text general_category (chr cp) = Ok (chr cp)).
Proof.
  assert (∀ out, emitted general_category cp = out →
            __replace_character general_category (chr cp) = Ok out ∧
            normalize_text general_category (chr cp) = Ok out) as Hboth.
  { intros out <-. split; [apply replace_character_chr|apply normalize_text_chr]. }
  split; [|split].
  - intros r Hr. split; [by apply unicode_map_chars in Hr as [_ ?]|].
    by apply Hboth, emitted_mapped.
  - intros Hnone Hdis. by apply Hboth, emitted_dropped.
  - intros Hnone Hok. by apply Hboth, emitted_allowed.
Qed.

(** En Dash is a key whose category, [Pd], is disallowed, and it is
    replaced rather than dropped; the exclamation mark is dropped; the
    letter [a] is kept. *)
Lemma replace_character_decision_order_witness :
  ucd_excerpt 0x2013 ∈ disallowed_unicode_category ∧
  normalize_text ucd_excerpt (chr 0x2013) = Ok (chr 0x2d) ∧
  normalize_text ucd_excerpt (chr 0x21) = Ok [] ∧
  normalize_text ucd_excerpt (chr 0x61) = Ok (chr 0x61).
Proof.
  split; [by_evaluation|]. split; [|split].
  - apply (proj1 (replace_character_decision_order ucd_excerpt 0x2013) (chr 0x2d)).
    by_evaluation.
  - apply (proj1 (proj2 (replace_character_decision_order ucd_excerpt 0x21)));
      by_evaluation.
  - apply (proj2 (proj2 (replace_character_decision_order ucd_excerpt 0x61)));
      by_evaluation.
Defined.

(** C2 as stated fails: the disallowed set of the source also holds [Ps],
    which is not among the fifteen documented codes. *)
Lemma disallowed_not_the_documented_fifteen :
  "Ps"%string ∈ disallowed_unicode_category ∧
  ("Ps"%string ∉ documented_categories) ∧
  size disallowed_unicode_category ≠ 15 ∧
  ¬ (∀ cat : string,
       cat ∈ disallowed_unicode_category ↔ cat ∈ documented_categories).
Proof.
  assert ("Ps"%string ∈ disallowed_unicode_category) as Hin by by_evaluation.
  assert ("Ps"%string ∉ documented_categories) as Hout by by_evaluation.
  split; [exact Hin|]. split; [exact Hout|]. split; [by_evaluation|].
  intros H. apply Hout, H, Hin.
Qed.

(** C2, amended.  The disallowed set holds exactly sixteen general-category
    codes: the fifteen documented ones, [Cc], [Cf], [Mc], [Me], [Mn], [Pc],
    [Pd], [Pe], [Pf], [Pi], [Po], [Sm], [So], [Zl], [Zp], and [Ps]. *)
Theorem disallowed_unicode_category_content :
  (∀ cat : string,
     cat ∈ disallowed_unicode_category ↔
     cat ∈ documented_categories ∨ cat = "Ps"%string) ∧
  NoDup documented_categories ∧
  length documented_categories = 15 ∧
  ("Ps"%string ∉ documented_categories) ∧
  size disallowed_unicode_category = 16.
Proof.
  split; [apply disallowed_unicode_category_elem|].
  split; [by_evaluation|]. split; [reflexivity|].
  split; by_evaluation.
Qed.

(** C3.  A text whose every character is a replacement of the mapping
    table, or is neither a key of the table nor of a disallowed category, is
    returned as it is. *)
Theorem normalize_text_normalized_fixed
    (general_category : codepoint → string) (s : str) :
  Forall (λ cp,
            (∃ k, unicode_map !! k = Some (chr cp)) ∨
            (unicode_map !! chr cp = None ∧
             general_category cp ∉ disallowed_unicode_category)) s →
  normalize_text general_category s = Ok s.
Proof.
  intros Hs. rewrite normalize_text_emitted. f_equal.
  induction Hs as [|cp s Hcp _ IH]; [done|].
  rewrite fmap_cons. cbn [concat]. rewrite IH.
  destruct Hcp as [[k Hk]|[Hnone Hok]].
  - apply unicode_map_value_fixed in Hk.
    by rewrite (emitted_mapped _ _ _ Hk).
  - by rewrite emitted_allowed.
Qed.

(** The text [-a,] is made of two replacements and an allowed letter. *)
Lemma normalize_text_normalized_fixed_witness :
  normalize_text ucd_excerpt [0x2d; 0x61; 0x2c]%N = Ok [0x2d; 0x61; 0x2c]%N.
Proof.
  apply normalize_text_normalized_fixed.
  repeat apply Forall_cons_2; [| | |apply Forall_nil_2].
  - left. exists (chr 0x2013). by_evaluation.
  - right. split; by_evaluation.
  - left. exists (chr 0xff0c). by_evaluation.
Defined.

(** C4.  [normalize_text] returns on every text and never raises; the empty
    text gives the empty text; iteration yields one character per code
    point, whatever the plane of the code point, so that the
    supplementary-plane key U+16B3A is found in the table as one
    character. *)
Theorem normalize_text_total (general_category : codepoint → string) :
  (∀ text : str, ∃ out, normalize_text general_category text = Ok out) ∧
  normalize_text general_category [] = Ok [] ∧
  (∀ text : str,
     length (str_iter text) = length text ∧
     Forall (λ c : str, length c = 1) (str_iter text)) ∧
  str_iter (chr 0x16b3a) = [chr 0x16b3a] ∧
  normalize_text general_category (chr 0x16b3a) = Ok (chr 0x26).
Proof.
  split; [|split; [|split; [|split]]].
  - intros text. eexists. apply normalize_text_emitted.
  - apply normalize_text_emitted.
  - intros text. split; [apply str_iter_length|apply str_iter_chars].
  - reflexivity.
  - rewrite normalize_text_chr, (emitted_mapped _ _ (chr 0x26)); [done|by_evaluation].
Qed.

(** C5.  Each character of the text yields a piece of at most one
    character, the result is the pieces concatenated in the order of the
    text, and so the result is never longer than the text. *)
Theorem normalize_text_length (general_category : codepoint → string) (s : str) :
  ∃ pieces : list str,
    Forall2 (λ cp p, __replace_character general_category (chr cp) = Ok p ∧
                     length p ≤ 1) s pieces ∧
    normalize_text general_category s = Ok (concat pieces) ∧
    length (concat pieces) ≤ length s.
Proof.
  exists (emitted general_category <$> s). split; [|split].
  - apply emitted_pieces.
  - apply normalize_text_emitted.
  - apply emitted_concat_length.
Qed.

(** C6.  A character of category [Cc] that is not a key of the mapping
    table is dropped: normalizing a text gives what normalizing the text
    without that character gives. *)
Theorem normalize_text_drops_control
    (general_category : codepoint → string) (cp : codepoint) (s : str) :
  general_category cp = "Cc"%string →
  unicode_map !! chr cp = None →
  normalize_text general_category (chr cp) = Ok [] ∧
  normalize_text general_category s =
  normalize_text general_category (filter (λ x, x ≠ cp) s).
Proof.
  intros Hcat Hnone.
  assert (emitted general_category cp = []) as Hcp.
  { apply emitted_dropped; [done|]. rewrite Hcat. by_evaluation. }
  split; [by rewrite normalize_text_chr, Hcp|].
  rewrite !normalize_text_emitted. f_equal.
  induction s as [|x s IH]; [done|].
  rewrite fmap_cons. cbn [concat].
  destruct (decide (x = cp)) as [->|Hne].
  - rewrite filter_cons_False by (by intros []). by rewrite Hcp.
  - rewrite filter_cons_True by done. rewrite fmap_cons. cbn [concat].
    rewrite IH. reflexivity.
Qed.

(** U+0000 inside [a b]: the control character goes, the rest stays. *)
Lemma normalize_text_drops_control_witness :
  normalize_text ucd_excerpt (chr 0x00) = Ok [] ∧
  normalize_text ucd_excerpt [0x61; 0x00; 0x20; 0x00; 0x62]%N =
  normalize_text ucd_excerpt [0x61; 0x20; 0x62]%N.
Proof.
  apply (normalize_text_drops_control ucd_excerpt 0x00
           [0x61; 0x00; 0x20; 0x00; 0x62]%N); by_evaluation.
Defined.

(** C7.  Neither [Zs] nor [Sc] is disallowed, so a character of one of
    these categories that is not a key of the mapping table is returned
    unchanged, alone or anywhere inside a text. *)
Theorem normalize_text_keeps_space_and_currency
    (general_category : codepoint → string) (cp : codepoint) (s1 s2 : str) :
  general_category cp = "Zs"%string ∨ general_category cp = "Sc"%string →
  unicode_map !! chr cp = None →
  (general_category cp ∉ disallowed_unicode_category) ∧
  __replace_character general_category (chr cp) = Ok (chr cp) ∧
  ∃ o1 o2,
    normalize_text general_category s1 = Ok o1 ∧
    normalize_text general_category s2 = Ok o2 ∧
    normalize_text general_category (s1 ++ chr cp ++ s2) = Ok (o1 ++ chr cp ++ o2).
Proof.
  intros Hcat Hnone.
  assert (general_category cp ∉ disallowed_unicode_category) as Hok.
  { destruct Hcat as [-> | ->]; by_evaluation. }
  pose proof (emitted_allowed general_category cp Hnone Hok) as Hcp.
  split; [done|]. split; [by rewrite replace_character_chr, Hcp|].
  destruct (normalize_text_around general_category cp s1 s2)
    as (o1 & o2 & H1 & H2 & H).
  exists o1, o2. rewrite Hcp in H. exact (conj H1 (conj H2 H)).
Qed.

(** The ordinary space U+0020, between [a] and [b]. *)
Lemma normalize_text_keeps_space_and_currency_witness :
  __replace_character ucd_excerpt (chr 0x20) = Ok (chr 0x20) ∧
  normalize_text ucd_excerpt [0x61; 0x20; 0x62]%N = Ok [0x61; 0x20; 0x62]%N.
Proof.
  destruct (normalize_text_keeps_space_and_currency ucd_excerpt 0x20
              (chr 0x61) (chr 0x62)) as (_ & Hr & o1 & o2 & H1 & H2 & H);
    [left; by_evaluation | by_evaluation |].
  split; [exact Hr|].
  vm_compute in H1, H2. injection H1 as <-. injection H2 as <-. exact H.
Defined.

(** C8.  En Dash U+2013 anywhere in a text becomes Hyphen-Minus, Fullwidth
    Comma U+FF0C anywhere in a text becomes the ASCII comma, and, the
    letters of [foo] and [bar] being lowercase letters ([Ll]), the text
    [foo], Em Dash U+2014, [bar] becomes [foo-bar]. *)
Theorem normalize_text_dashes_and_comma (general_category : codepoint → string) :
  (∀ cp, cp ∈ [0x66; 0x6f; 0x62; 0x61; 0x72]%N → general_category cp = "Ll"%string) →
  (∀ s1 s2 : str, ∃ o1 o2,
     normalize_text general_category s1 = Ok o1 ∧
     normalize_text general_category s2 = Ok o2 ∧
     normalize_text general_category (s1 ++ chr 0x2013 ++ s2) =
       Ok (o1 ++ chr 0x2d ++ o2)) ∧
  normalize_text general_category [0x66; 0x6f; 0x6f; 0x2014; 0x62; 0x61; 0x72]%N =
    Ok [0x66; 0x6f; 0x6f; 0x2d; 0x62; 0x61; 0x72]%N ∧
  (∀ s1 s2 : str, ∃ o1 o2,
     normalize_text general_category s1 = Ok o1 ∧
     normalize_text general_category s2 = Ok o2 ∧
     normalize_text general_category (s1 ++ chr 0xff0c ++ s2) =
       Ok (o1 ++ chr 0x2c ++ o2)).
Proof.
  intros Hletters.
  assert (emitted general_category 0x2013 = chr 0x2d) as Hen
    by (apply emitted_mapped; by_evaluation).
  assert (emitted general_category 0x2014 = chr 0x2d) as Hem
    by (apply emitted_mapped; by_evaluation).
  assert (emitted general_category 0xff0c = chr 0x2c) as Hcomma
    by (apply emitted_mapped; by_evaluation).
  assert (∀ cp, cp ∈ [0x66; 0x6f; 0x62; 0x61; 0x72]%N →
            emitted general_category cp = chr cp) as Hkeep.
  { intros cp Hin. apply emitted_allowed.
    - rewrite !elem_of_cons, elem_of_nil in Hin.
      destruct Hin as [->|[->|[->|[->|[->|[]]]]]]; by_evaluation.
    - rewrite (Hletters cp Hin). by_evaluation. }
  split; [|split].
  - intros s1 s2.
    destruct (normalize_text_around general_category 0x2013 s1 s2)
      as (o1 & o2 & H1 & H2 & H).
    exists o1, o2. rewrite Hen in H. exact (conj H1 (conj H2 H)).
  - rewrite normalize_text_emitted, !fmap_cons, fmap_nil. cbn [concat].
    rewrite Hem, (Hkeep 0x66%N), (Hkeep 0x6f%N), (Hkeep 0x62%N),
      (Hkeep 0x61%N), (Hkeep 0x72%N) by by_evaluation.
    reflexivity.
  - intros s1 s2.
    destruct (normalize_text_around general_category 0xff0c s1 s2)
      as (o1 & o2 & H1 & H2 & H).
    exists o1, o2. rewrite Hcomma in H. exact (conj H1 (conj H2 H)).
Qed.

(** With the categories of the excerpt, on [foo], Em Dash, [bar]. *)
Lemma normalize_text_dashes_and_comma_witness :
  normalize_text ucd_excerpt [0x66; 0x6f; 0x6f; 0x2014; 0x62; 0x61; 0x72]%N =
    Ok [0x66; 0x6f; 0x6f; 0x2d; 0x62; 0x61; 0x72]%N.
Proof.
  apply (normalize_text_dashes_and_comma ucd_excerpt).
  intros cp Hin. rewrite !elem_of_cons, elem_of_nil in Hin.
  destruct Hin as [->|[->|[->|[->|[->|[]]]]]]; reflexivity.
Defined.

(** C9.  [normalize_text] is idempotent on every text: every replacement
    of the mapping table is a key that is replaced by itself, what a
    character is replaced by is returned as it is, and so is the result of
    normalizing any text. *)
Theorem normalize_text_idempotent (general_category : codepoint → string) (s : str) :
  (∀ k v, unicode_map !! k = Some v → unicode_map !! v = Some v) ∧
  (∀ cp out,
     __replace_character general_category (chr cp) = Ok out →
     normalize_text general_category out = Ok out) ∧
  ∃ out,
    normalize_text general_category s = Ok out ∧
    normalize_text general_category out = Ok out.
Proof.
  split; [apply unicode_map_value_fixed|]. split.
  - intros cp out. rewrite replace_character_chr. intros <-%Ok_inj.
    rewrite normalize_text_emitted, emitted_fixed. reflexivity.
  - eexists. split; [apply normalize_text_emitted|].
    rewrite normalize_text_emitted, emitted_concat_fixed. reflexivity.
Qed.

(** C10.  The exclamation mark U+0021 and the number sign U+0023, of
    category [Po], and the vertical line U+007C, of category [Sm], are not
    keys of the mapping table and their categories are disallowed: each is
    deleted by [normalize_text]. *)
Theorem normalize_text_deletes_ascii_punctuation
    (general_category : codepoint → string) :
  general_category 0x21%N = "Po"%string →
  general_category 0x23%N = "Po"%string →
  general_category 0x7c%N = "Sm"%string →
  (unicode_map !! chr 0x21 = None ∧
   unicode_map !! chr 0x23 = None ∧
   unicode_map !! chr 0x7c = None) ∧
  ("Po"%string ∈ disallowed_unicode_category ∧
   "Sm"%string ∈ disallowed_unicode_category) ∧
  normalize_text general_category (chr 0x21) = Ok [] ∧
  normalize_text general_category (chr 0x23) = Ok [] ∧
  normalize_text general_category (chr 0x7c) = Ok [].
Proof.
  intros Hbang Hhash Hbar.
  split; [by repeat split; by_evaluation|].
  split; [split; by_evaluation|].
  rewrite !normalize_text_chr.
  rewrite !emitted_dropped; [done|by_evaluation|..].
  all: try by_evaluation.
  all: first [rewrite Hbang | rewrite Hhash | rewrite Hbar]; by_evaluation.
Qed.

Lemma normalize_text_deletes_ascii_punctuation_witness :
  normalize_text ucd_excerpt (chr 0x21) = Ok [] ∧
  normalize_text ucd_excerpt (chr 0x23) = Ok [] ∧
  normalize_text ucd_excerpt (chr 0x7c) = Ok [].
Proof.
  apply (normalize_text_deletes_ascii_punctuation ucd_excerpt); reflexivity.
Defined.

(** * Further properties of the methods and the tables *)

Lemma Ok_ne_Raise {A} (a : A) (e : exn) : Ok a ≠ Raise e.
Proof. congruence. Qed.

Section OutcomeFacts.

Variable general_category : codepoint → string.

Local Abbreviation replace_char := (__replace_character general_category).
Local Abbreviation normalize := (normalize_text general_category).
Local Abbreviation emit := (emitted general_category).

Local Abbreviation kept := (kept general_category).
Local Abbreviation dropped := (dropped general_category).

Lemma emitted_cases cp :
  (∃ c, unicode_map !! chr cp = Some (chr c) ∧ emit cp = chr c) ∨
  (dropped cp ∧ emit cp = []) ∨
  (unicode_map !! chr cp = None ∧
   (general_category cp ∉ disallowed_unicode_category) ∧ emit cp = chr cp).
Proof.
  destruct (unicode_map !! chr cp) as [r|] eqn:Hr.
  - left. pose proof (unicode_map_chars _ _ Hr) as [_ Hlen].
    destruct r as [|c [|??]]; [discriminate Hlen| |discriminate Hlen].
    exists c. split; [reflexivity|]. exact (emitted_mapped _ _ _ Hr).
  - right.
    destruct (decide (general_category cp ∈ disallowed_unicode_category)) as [Hd|Hd].
    + left. split; [exact (conj Hr Hd)|]. exact (emitted_dropped _ _ Hr Hd).
    + right. split; [reflexivity|]. split; [exact Hd|].
      exact (emitted_allowed _ _ Hr Hd).
Qed.

Lemma emitted_kept_iff cp : emit cp = chr cp ↔ kept cp.
Proof.
  split.
  - intros Hfix.
    destruct (emitted_cases cp) as [(c & Hc & Hem)|[(_ & Hem)|(Hn & Hok & _)]].
    + left. rewrite Hc. f_equal. rewrite <- Hem. exact Hfix.
    + rewrite Hem in Hfix. discriminate Hfix.
    + right. exact (conj Hn Hok).
  - intros [Hself|[Hn Hok]].
    + exact (emitted_mapped _ _ _ Hself).
    + exact (emitted_allowed _ _ Hn Hok).
Qed.

Lemma emitted_nil_iff cp : emit cp = [] ↔ dropped cp.
Proof.
  split.
  - intros Hnil.
    destruct (emitted_cases cp) as [(c & _ & Hem)|[(Hd & _)|(_ & _ & Hem)]].
    + rewrite Hem in Hnil. discriminate Hnil.
    + exact Hd.
    + rewrite Hem in Hnil. discriminate Hnil.
  - intros [Hn Hd]. exact (emitted_dropped _ _ Hn Hd).
Qed.

Lemma emitted_all_kept cp : Forall kept (emit cp).
Proof.
  destruct (emitted_cases cp) as [(c & Hc & ->)|[(_ & ->)|(Hn & Hok & ->)]].
  - apply Forall_singleton. left. exact (unicode_map_value_fixed _ _ Hc).
  - apply Forall_nil_2.
  - apply Forall_singleton. right. exact (conj Hn Hok).
Qed.

Lemma emitted_concat_all_kept text : Forall kept (concat (emit <$> text)).
Proof.
  induction text as [|cp text IH]; [apply Forall_nil_2|].
  rewrite fmap_cons. cbn [concat]. apply Forall_app.
  split; [apply emitted_all_kept|exact IH].
Qed.

Lemma emitted_concat_fixed_inv text :
  concat (emit <$> text) = text → Forall kept text.
Proof.
  induction text as [|cp text IH]; [intros _; apply Forall_nil_2|].
  rewrite fmap_cons. cbn [concat]. intros Heq.
  pose proof (emitted_concat_length general_category text) as Hlen.
  destruct (emitted_cases cp) as [(c & Hc & Hem)|[(_ & Hem)|(Hn & Hok & Hem)]];
    rewrite Hem in Heq.
  - apply (f_equal (@length N)) in Heq as Hl.
    injection Heq as -> Hrest.
    apply Forall_cons_2; [left; exact Hc|exact (IH Hrest)].
  - apply (f_equal (@length N)) in Heq. cbn [app length] in Heq. lia.
  - injection Heq as Hrest.
    apply Forall_cons_2; [right; exact (conj Hn Hok)|exact (IH Hrest)].
Qed.

Lemma emitted_concat_kept text :
  Forall kept text → concat (emit <$> text) = text.
Proof.
  induction 1 as [|cp text Hcp _ IH]; [reflexivity|].
  rewrite fmap_cons. cbn [concat].
  rewrite IH, (proj2 (emitted_kept_iff cp) Hcp). reflexivity.
Qed.

Lemma emitted_concat_count text :
  length (concat (emit <$> text)) + length (filter dropped text) = length text.
Proof.
  induction text as [|cp text IH]; [reflexivity|].
  rewrite fmap_cons. cbn [concat]. rewrite length_app, length_cons.
  destruct (decide (dropped cp)) as [Hd|Hd].
  - rewrite filter_cons_True by exact Hd.
    rewrite (proj2 (emitted_nil_iff cp) Hd), length_cons. cbn [length]. lia.
  - rewrite filter_cons_False by exact Hd.
    assert (length (emit cp) = 1) as ->; [|lia].
    destruct (emitted_cases cp) as [(c & _ & ->)|[(Hd' & _)|(_ & _ & ->)]];
      [reflexivity|destruct (Hd Hd')|reflexivity].
Qed.

Lemma emitted_reverse cp : reverse (emit cp) = emit cp.
Proof.
  destruct (emitted_cases cp) as [(c & _ & ->)|[(_ & ->)|(_ & _ & ->)]];
    reflexivity.
Qed.

Lemma emitted_concat_reverse text :
  concat (emit <$> reverse text) = reverse (concat (emit <$> text)).
Proof.
  induction text as [|cp text IH]; [reflexivity|].
  rewrite reverse_cons, fmap_app, concat_app, IH.
  rewrite !fmap_cons, fmap_nil. cbn [concat].
  rewrite app_nil_r, reverse_app, emitted_reverse. reflexivity.
Qed.

Lemma emitted_concat_unmapped text :
  Forall (λ cp, unicode_map !! chr cp = None) text →
  concat (emit <$> text) =
  filter (λ cp, general_category cp ∉ disallowed_unicode_category) text.
Proof.
  induction 1 as [|cp text Hcp _ IH]; [reflexivity|].
  rewrite fmap_cons. cbn [concat]. rewrite IH.
  destruct (decide (general_category cp ∈ disallowed_unicode_category)) as [Hd|Hd].
  - rewrite filter_cons_False by (intros Hn; exact (Hn Hd)).
    rewrite (emitted_dropped _ _ Hcp Hd). reflexivity.
  - rewrite filter_cons_True by exact Hd.
    rewrite (emitted_allowed _ _ Hcp Hd). reflexivity.
Qed.

Lemma emitted_concat_ext (other_category : codepoint → string) text :
  (∀ cp, cp ∈ text → unicode_map !! chr cp = None →
     (general_category cp ∈ disallowed_unicode_category ↔
      other_category cp ∈ disallowed_unicode_category)) →
  concat (emit <$> text) = concat (emitted other_category <$> text).
Proof.
  induction text as [|cp text IH]; [reflexivity|].
  intros Hagree. rewrite !fmap_cons. cbn [concat].
  rewrite IH by (intros c Hc; apply Hagree, list_elem_of_further, Hc).
  f_equal. unfold emitted.
  destruct (unicode_map !! chr cp) as [r|] eqn:Hr; [reflexivity|].
  rewrite (bool_decide_ext _ _ (Hagree cp (list_elem_of_here _ _) Hr)).
  reflexivity.
Qed.

(** Off the characters, [__replace_character] raises: no key of the table
    is anything but one character, and [unicodedata.category] refuses the
    rest. *)
Lemma replace_character_not_chr (c : str) :
  length c ≠ 1 → replace_char c = Raise TypeError.
Proof.
  intros Hlen. unfold __replace_character.
  destruct (unicode_map !! c) as [r|] eqn:Hr.
  - apply unicode_map_chars in Hr as [Hk _]. destruct (Hlen Hk).
  - clear Hr. destruct c as [|? [|? ?]];
      [reflexivity|destruct Hlen; reflexivity|reflexivity].
Qed.

End OutcomeFacts.

(** No ASCII digit or letter is a key of the table. *)
Lemma unicode_map_no_alnum_key cp :
  is_ascii_alnum cp = true → unicode_map !! chr cp = None.
Proof.
  intros Halnum. destruct (unicode_map !! chr cp) as [r|] eqn:Hr; [|reflexivity].
  apply (unicode_map_check
           (λ k _, match k with [c] => negb (is_ascii_alnum c) | _ => true end))
    in Hr; [|vm_compute; reflexivity].
  unfold chr in Hr. rewrite Halnum in Hr. discriminate Hr.
Qed.

(** X1.  Normalizing a concatenation gives the concatenation of the
    normalized parts: a text may be normalized piece by piece. *)
Theorem normalize_text_concat
    (general_category : codepoint → string) (s1 s2 : str) :
  ∃ o1 o2,
    normalize_text general_category s1 = Ok o1 ∧
    normalize_text general_category s2 = Ok o2 ∧
    normalize_text general_category (s1 ++ s2) = Ok (o1 ++ o2).
Proof.
  exists (concat (emitted general_category <$> s1)),
         (concat (emitted general_category <$> s2)).
  rewrite !normalize_text_emitted, fmap_app, concat_app.
  split; [reflexivity|]. split; reflexivity.
Qed.

(** X2.  Every character of a normalized text is a kept character: a key
    that is its own replacement, or a character that is not a key and whose
    category is allowed; [__replace_character] returns it as it is.  The
    result never holds a key that is replaced by another character, nor an
    unmapped character of a disallowed category. *)
Theorem normalize_text_output_kept
    (general_category : codepoint → string) (s : str) :
  ∃ out,
    normalize_text general_category s = Ok out ∧
    Forall (λ c, kept general_category c ∧
                 ¬ dropped general_category c ∧
                 __replace_character general_category (chr c) = Ok (chr c)) out.
Proof.
  exists (concat (emitted general_category <$> s)).
  split; [apply normalize_text_emitted|].
  eapply Forall_impl; [apply emitted_concat_all_kept|].
  intros c Hc. pose proof (proj2 (emitted_kept_iff general_category c) Hc) as Hem.
  split; [exact Hc|]. split.
  - intros Hd. apply emitted_nil_iff in Hd. rewrite Hd in Hem. discriminate Hem.
  - rewrite replace_character_chr, Hem. reflexivity.
Qed.

(** X3.  A text is returned as it is exactly when all its characters are
    kept characters. *)
Theorem normalize_text_fixed_iff
    (general_category : codepoint → string) (s : str) :
  normalize_text general_category s = Ok s ↔ Forall (kept general_category) s.
Proof.
  rewrite normalize_text_emitted. split.
  - intros H%Ok_inj. exact (emitted_concat_fixed_inv _ _ H).
  - intros H. rewrite (emitted_concat_kept _ _ H). reflexivity.
Qed.

(** X4.  A character is deleted exactly when it is not a key and its
    category is disallowed, and the length of the result is the length of
    the text less the number of such characters. *)
Theorem normalize_text_length_exact (general_category : codepoint → string) :
  (∀ cp, __replace_character general_category (chr cp) = Ok [] ↔
         dropped general_category cp) ∧
  (∀ s : str, ∃ out,
     normalize_text general_category s = Ok out ∧
     length out + length (filter (dropped general_category) s) = length s).
Proof.
  split.
  - intros cp. rewrite replace_character_chr. split.
    + intros H%Ok_inj. exact (proj1 (emitted_nil_iff _ _) H).
    + intros H. rewrite (proj2 (emitted_nil_iff _ _) H). reflexivity.
  - intros s. eexists. split; [apply normalize_text_emitted|].
    apply emitted_concat_count.
Qed.

(** X5.  [__replace_character] raises [TypeError] exactly on the strings
    that are not one character, and returns on every character. *)
Theorem replace_character_raises_iff
    (general_category : codepoint → string) (c : str) :
  (__replace_character general_category c = Raise TypeError ↔ length c ≠ 1) ∧
  ((∃ out, __replace_character general_category c = Ok out) ↔ length c = 1).
Proof.
  destruct (decide (length c = 1)) as [Hlen|Hlen].
  - destruct c as [|cp [|??]]; [discriminate Hlen| |discriminate Hlen].
    change [cp] with (chr cp). rewrite replace_character_chr. split; split.
    + intros H. destruct (Ok_ne_Raise _ _ H).
    + intros H. destruct (H Hlen).
    + intros _. exact Hlen.
    + intros _. eexists. reflexivity.
  - rewrite (replace_character_not_chr general_category c Hlen). split; split.
    + intros _. exact Hlen.
    + intros _. reflexivity.
    + intros [out H]. symmetry in H. destruct (Ok_ne_Raise _ _ H).
    + intros H. destruct (Hlen H).
Qed.

(** X6.  The category of a key of the table is never consulted: two
    category tables that disallow the same characters among those of the
    text that are not keys give the same result. *)
Theorem normalize_text_key_category_unused
    (general_category other_category : codepoint → string) (s : str) :
  (∀ cp, cp ∈ s → unicode_map !! chr cp = None →
     (general_category cp ∈ disallowed_unicode_category ↔
      other_category cp ∈ disallowed_unicode_category)) →
  normalize_text general_category s = normalize_text other_category s.
Proof.
  intros Hagree. rewrite !normalize_text_emitted.
  rewrite (emitted_concat_ext general_category other_category s Hagree).
  reflexivity.
Qed.

(** The two tables differ on En Dash, disallowed in one and a letter in
    the other; on the text [a], En Dash, [!] they give the same result. *)
Lemma normalize_text_key_category_unused_witness :
  ucd_excerpt 0x2013 ≠ ucd_excerpt_dash_letter 0x2013 ∧
  normalize_text ucd_excerpt [0x61; 0x2013; 0x21]%N =
  normalize_text ucd_excerpt_dash_letter [0x61; 0x2013; 0x21]%N.
Proof.
  split; [by_evaluation|].
  apply normalize_text_key_category_unused.
  intros cp Hin Hnone. rewrite !elem_of_cons, elem_of_nil in Hin.
  destruct Hin as [->|[->|[->|[]]]].
  - reflexivity.
  - vm_compute in Hnone. discriminate Hnone.
  - reflexivity.
Defined.

(** X7.  No key is written twice in the [unicode_map] display: its 678
    items have distinct keys, the dict has 678 bindings, and a lookup gives
    a value exactly when the display has the item. *)
Theorem unicode_map_keys_distinct :
  NoDup (unicode_map_items.*1) ∧
  length unicode_map_items = 678 ∧
  size unicode_map = 678 ∧
  (∀ k v, unicode_map !! k = Some v ↔ (k, v) ∈ unicode_map_items).
Proof.
  split; [by_evaluation|]. split; [reflexivity|]. split; [by_evaluation|].
  intros k v. split.
  - apply unicode_map_lookup_elem.
  - apply unicode_map_items_lookup.
Qed.

(** The distinct replacements, as [remove_dups] leaves them. *)
Lemma unicode_map_values_list :
  unicode_map_values =
  chr <$>
    [ 0xb4; 0x26; 0x27; 0x2a; 0x3a; 0x2c; 0x40; 0x3d; 0x2e; 0x60; 0x3e; 0x2d;
      0x300c; 0x7b; 0x201c; 0x28; 0x2018; 0x5b; 0x3c; 0x5f; 0xd7; 0x25; 0x2b;
      0x3f; 0x22; 0x5c; 0x300d; 0x7d; 0x201d; 0x29; 0x2019; 0x5d; 0x3b; 0xa7;
      0x2f; 0x7e ]%N.
Proof. vm_compute. reflexivity. Qed.

(** X8.  The table replaces its keys by thirty-six characters in all: the
    twenty-seven ASCII punctuation marks and symbols listed, the section
    sign, the acute accent, the multiplication sign, the four curly
    quotation marks and the two corner brackets.  Each of them is a key
    that is its own replacement. *)
Theorem unicode_map_replacements :
  length unicode_map_values = 36 ∧
  (∀ v, v ∈ unicode_map_values ↔
        v ∈ chr <$>
          [ 0x22; 0x25; 0x26; 0x27; 0x28; 0x29; 0x2a; 0x2b; 0x2c; 0x2d;
            0x2e; 0x2f; 0x3a; 0x3b; 0x3c; 0x3d; 0x3e; 0x3f; 0x40; 0x5b;
            0x5c; 0x5d; 0x5f; 0x60; 0x7b; 0x7d; 0x7e; 0xa7; 0xb4; 0xd7;
            0x2018; 0x2019; 0x201c; 0x201d; 0x300c; 0x300d ]%N) ∧
  (∀ k v, unicode_map !! k = Some v → v ∈ unicode_map_values) ∧
  (∀ v, v ∈ unicode_map_values → unicode_map !! v = Some v).
Proof.
  split; [by_evaluation|]. split; [|split].
  - rewrite unicode_map_values_list.
    intros v. split; intros Hv; revert v Hv; apply Forall_forall; by_evaluation.
  - intros k v Hkv.
    apply (unicode_map_check (λ _ v, bool_decide (v ∈ unicode_map_values)))
      in Hkv; [|vm_compute; reflexivity].
    exact (bool_decide_eq_true_1 _ Hkv).
  - rewrite unicode_map_values_list.
    apply Forall_forall. by_evaluation.
Qed.

(** X9.  No ASCII digit or letter is a key of the table, so a text of
    ASCII digits and letters, their categories being allowed, is returned
    as it is. *)
Theorem normalize_text_ascii_alnum
    (general_category : codepoint → string) (s : str) :
  Forall (λ cp, is_ascii_alnum cp = true ∧
                general_category cp ∉ disallowed_unicode_category) s →
  Forall (λ cp, unicode_map !! chr cp = None) s ∧
  normalize_text general_category s = Ok s.
Proof.
  intros Hs.
  assert (Forall (λ cp, unicode_map !! chr cp = None) s) as Hnone.
  { eapply Forall_impl; [exact Hs|]. intros cp [Hcp _].
    exact (unicode_map_no_alnum_key cp Hcp). }
  split; [exact Hnone|].
  rewrite normalize_text_emitted. f_equal.
  apply emitted_concat_kept.
  eapply Forall_impl; [exact Hs|]. intros cp [Hcp Hok].
  right. exact (conj (unicode_map_no_alnum_key cp Hcp) Hok).
Qed.

(** The text [aZ9], with the categories [Ll], [Lu] and [Nd]. *)
Lemma normalize_text_ascii_alnum_witness :
  Forall (λ cp, unicode_map !! chr cp = None) [0x61; 0x5a; 0x39]%N ∧
  normalize_text ucd_excerpt [0x61; 0x5a; 0x39]%N = Ok [0x61; 0x5a; 0x39]%N.
Proof.
  apply (normalize_text_ascii_alnum ucd_excerpt).
  repeat apply Forall_cons_2; [| | |apply Forall_nil_2];
    (split; [reflexivity|by_evaluation]).
Defined.

(** X10.  Normalizing the reversed text gives the reversed result: every
    character is decided on its own, whatever stands around it. *)
Theorem normalize_text_reverse
    (general_category : codepoint → string) (s : str) :
  normalize_text general_category (reverse s) =
  reverse <$> normalize_text general_category s.
Proof.
  rewrite !normalize_text_emitted, emitted_concat_reverse. reflexivity.
Qed.

(** X11.  On a text without any key of the table, [normalize_text] is the
    filter that keeps the characters of allowed categories. *)
Theorem normalize_text_unmapped_filter
    (general_category : codepoint → string) (s : str) :
  Forall (λ cp, unicode_map !! chr cp = None) s →
  normalize_text general_category s =
  Ok (filter (λ cp, general_category cp ∉ disallowed_unicode_category) s).
Proof.
  intros Hs. rewrite normalize_text_emitted.
  rewrite (emitted_concat_unmapped general_category s Hs). reflexivity.
Qed.

(** The text [a!b $]: the exclamation mark goes, the space and the dollar
    sign stay. *)
Lemma normalize_text_unmapped_filter_witness :
  normalize_text ucd_excerpt [0x61; 0x21; 0x62; 0x20; 0x24]%N =
  Ok [0x61; 0x62; 0x20; 0x24]%N.
Proof.
  rewrite (normalize_text_unmapped_filter ucd_excerpt).
  - by_evaluation.
  - repeat apply Forall_cons_2; [| | | | |apply Forall_nil_2]; by_evaluation.
Defined.
